(** * Itachi4/webScraping: a shallow embedding of the scraper pipeline

    The repository holds three copies of one request handler:
    - [Controller]: src/controllers/scraper.controller.ts together with
      services/puppeteer.service.ts and services/zillow.service.ts
      (pagination without an early exit);
    - [ScrapeTs]: src/scrape.ts (base URL normalisation, pagination that
      stops at the first page without cards);
    - [SinglePage]: the earlier scrape.ts kept at the end of
      puppeteer.service.ts (one page, records with beds and baths).

    The browser is an interface ([Browser]). The launch, every navigation
    and wait, every call on the page made by [getZillowURL] and by the
    pagination ([page.$], typing, the Enter key, [page.evaluate]) can
    reject, and the scroll can stay pending; opening the page, its settings,
    the [setTimeout] delay and [browser.close] are taken to resolve.
    JavaScript strings are [string]s (code units in the Latin-1 range),
    [null] and [undefined] of a string are [None], a field of the request
    body is any JSON value ([Json]), and a statement that can throw is a
    [Try]. *)

From Stdlib Require Import String Ascii List Bool Arith ZArith Lia.
From Stdlib Require Import DecimalString.
Import ListNotations.

Open Scope string_scope.
Open Scope list_scope.

(* ================================================================= *)
(** ** JavaScript string operations used by the source *)

Module Js.

(** [s.includes(t)]: [t] occurs in [s] at some position, compared code unit
    by code unit (so the match is case-sensitive). *)
Fixpoint includes (s t : string) : bool :=
  if String.prefix t s then true
  else match s with
       | EmptyString => false
       | String _ s' => includes s' t
       end.

(** [s.endsWith(t)]: the last [length t] code units of [s] are [t]. *)
Definition endsWith (s t : string) : bool :=
  if Nat.leb (String.length t) (String.length s)
  then String.eqb (String.substring (String.length s - String.length t)
                                    (String.length t) s) t
  else false.

(** White space removed by [trim], on the Latin-1 range: TAB, LF, VT, FF,
    CR, SPACE and NBSP. *)
Definition isSpace (c : ascii) : bool :=
  match nat_of_ascii c with
  | 9 | 10 | 11 | 12 | 13 | 32 | 160 => true
  | _ => false
  end.

Fixpoint trimStart (s : string) : string :=
  match s with
  | EmptyString => EmptyString
  | String c s' => if isSpace c then trimStart s' else s
  end.

Fixpoint trimEnd (s : string) : string :=
  match s with
  | EmptyString => EmptyString
  | String c s' =>
      match trimEnd s' with
      | EmptyString => if isSpace c then EmptyString else String c EmptyString
      | r => String c r
      end
  end.

(** [s.trim()] *)
Definition trim (s : string) : string := trimEnd (trimStart s).

(** Truthiness of a [string | null | undefined] value: only a non-empty
    string is truthy. *)
Definition truthy (v : option string) : bool :=
  match v with
  | Some s => negb (String.eqb s "")
  | None => false
  end.

(** [v || null] on a [string | null | undefined] value. *)
Definition orNull (v : option string) : option string :=
  if truthy v then v else None.

(** A number in a template literal: its decimal digits. *)
Definition ofNat (n : nat) : string :=
  NilZero.string_of_uint (Nat.to_uint n).

End Js.

(** A value that [express.json()] can put in a field of [req.body]. A number
    is kept as the text that [String] gives for it, which is 0 exactly for
    the number zero; an array as the text of its [toString]. *)
Inductive Json : Type :=
| JNull
| JBool (b : bool)
| JNumber (text : string)
| JString (s : string)
| JArray (text : string)
| JObject.

Module JsonValue.

(** Truthiness of a field of the body, [None] when the field is missing
    ([undefined]): [null], [false], the number zero and the empty string are
    falsy besides. *)
Definition truthy (v : option Json) : bool :=
  match v with
  | None | Some JNull => false
  | Some (JBool b) => b
  | Some (JNumber text) => negb (String.eqb text "0")
  | Some (JString s) => negb (String.eqb s "")
  | Some (JArray _) | Some JObject => true
  end.

(** [`${v}`] *)
Definition toStr (v : option Json) : string :=
  match v with
  | None => "undefined"
  | Some JNull => "null"
  | Some (JBool true) => "true"
  | Some (JBool false) => "false"
  | Some (JNumber text) => text
  | Some (JString s) => s
  | Some (JArray text) => text
  | Some JObject => "[object Object]"
  end.

End JsonValue.

(** What a statement that can throw does: it returns a value or raises an
    error with a message. *)
Inductive Try (A : Type) : Type :=
| Returns (a : A)
| Raises (message : string).
Arguments Returns {A} a.
Arguments Raises {A} message.

(* ================================================================= *)
(** ** Data model *)

(** [interface Listing]: [price], [address] and [link] are always present
    as keys ([string | null]); [beds?] and [baths?] are optional keys, [None]
    when the key is not written at all, [Some None] when it is [null]. *)
Record Listing : Type := mkListing {
  price : option string;
  address : option string;
  link : option string;
  beds : option (option string);
  baths : option (option string)
}.

(** What the queries of the extractor see of one property card
    (one element of [querySelectorAll('div[class*="StyledPropertyCardDataWrapper"]')]). *)
Record Card : Type := mkCard {
  (** [textContent] of [querySelector('span[data-test="property-card-price"]')],
      [None] when no such element exists *)
  priceText : option string;
  (** [textContent] of [querySelector('address[data-test="property-card-addr"]')] *)
  addrText : option string;
  (** [querySelector('a[data-test="property-card-link"]')]: [None] when there is
      no such element, [Some None] when it has no href attribute *)
  linkHref : option (option string);
  (** [textContent] of each
      [querySelectorAll('ul[class*="StyledPropertyCardHomeDetailsList"] li')],
      in document order *)
  detailsList : list string
}.

(** One element of [document.querySelectorAll("h2 > a")]. *)
Record Anchor : Type := mkAnchor {
  textContent : string;
  href : option string   (** [getAttribute("href")], [None] without the attribute *)
}.

(** The DOM as the three [page.evaluate] callbacks read it. *)
Record Document : Type := mkDocument {
  origin : string;                (** [window.location.origin] *)
  resultAnchors : list Anchor;    (** [document.querySelectorAll("h2 > a")] *)
  propertyCards : list Card       (** the property-card containers, document order *)
}.

(** [new URL(link, baseUrl).href]: the WHATWG URL parser of the browser, kept
    abstract; [None] when the constructor throws its [TypeError] (the link
    does not parse against the base). *)
Class UrlApi : Type := { URL_href : string -> string -> option string }.

(** The message of that [TypeError]. *)
Definition invalidUrl : string := "Failed to construct 'URL': Invalid URL".

(* ================================================================= *)
(** ** Listing Extractor: the [page.evaluate] callbacks of
       [scrapeZillowListings] *)

Module Extractor.
Section WithUrl.
Context {url_api : UrlApi}.

(** [el?.textContent?.trim() || null] *)
Definition fieldText (el : option string) : option string :=
  Js.orNull (option_map Js.trim el).

(** [let link = card.querySelector(..)?.getAttribute("href");
     link = link ? new URL(link, baseUrl).href : null;]
    The constructor is reached for a non-empty href only, and throws when
    the href does not parse. *)
Definition fieldLink (baseUrl : string) (el : option (option string))
  : Try (option string) :=
  let link := match el with Some a => a | None => None end in
  if Js.truthy link
  then match link with
       | Some l =>
           match URL_href l baseUrl with
           | Some resolved => Returns (Some resolved)
           | None => Raises invalidUrl
           end
       | None => Returns None
       end
  else Returns None.

(** [detailsList.length > i ? detailsList[i]?.textContent?.trim() || null : null] *)
Definition fieldDetail (detailsList : list string) (i : nat) : option string :=
  if Nat.ltb i (List.length detailsList)
  then fieldText (nth_error detailsList i)
  else None.

(** The object literal [{ price, address, link }] built for one card in the
    paginated variants, [link] being the value that the statement before it
    has left in the variable. *)
Definition listing3 (card : Card) (link : option string) : Listing :=
  let price := fieldText (priceText card) in
  let address := fieldText (addrText card) in
  mkListing price address link None None.

(** The object literal [{ price, address, link, beds, baths }] of the
    single-page variant. *)
Definition listing5 (card : Card) (link : option string) : Listing :=
  let price := fieldText (priceText card) in
  let address := fieldText (addrText card) in
  let beds := fieldDetail (detailsList card) 0 in
  let baths := fieldDetail (detailsList card) 1 in
  mkListing price address link (Some beds) (Some baths).

(** Body of [cards.forEach]: the link is computed, which can throw, then
    [results.push({ .. })]. *)
Definition pushCard3 (baseUrl : string) (results : list Listing) (card : Card)
  : Try (list Listing) :=
  match fieldLink baseUrl (linkHref card) with
  | Returns link => Returns (results ++ [listing3 card link])
  | Raises message => Raises message
  end.

Definition pushCard5 (baseUrl : string) (results : list Listing) (card : Card)
  : Try (list Listing) :=
  match fieldLink baseUrl (linkHref card) with
  | Returns link => Returns (results ++ [listing5 card link])
  | Raises message => Raises message
  end.

(** [cards.forEach(body)] on the array [results]: an error thrown by the
    body for one card leaves the loop and the callback. *)
Fixpoint forEach (body : list Listing -> Card -> Try (list Listing))
         (cards : list Card) (results : list Listing) : Try (list Listing) :=
  match cards with
  | [] => Returns results
  | card :: cards' =>
      match body results card with
      | Returns results' => forEach body cards' results'
      | Raises message => Raises message
      end
  end.

(** The callback of zillow.service.ts and scrape.ts. *)
Definition extract3 (doc : Document) : Try (list Listing) :=
  let results := [] in
  let baseUrl := origin doc in
  let cards := propertyCards doc in
  forEach (pushCard3 baseUrl) cards results.

(** The callback of the single-page variant. *)
Definition extract5 (doc : Document) : Try (list Listing) :=
  let results := [] in
  let baseUrl := origin doc in
  let cards := propertyCards doc in
  forEach (pushCard5 baseUrl) cards results.

(** The link that [fieldLink] leaves when it does not throw. *)
Definition linkOf (baseUrl : string) (card : Card) : option string :=
  match fieldLink baseUrl (linkHref card) with
  | Returns link => link
  | Raises _ => None
  end.

(** The href of the card is handed to the URL constructor and does not
    parse. *)
Definition badLink (baseUrl : string) (card : Card) : bool :=
  match fieldLink baseUrl (linkHref card) with
  | Returns _ => false
  | Raises _ => true
  end.

(** The records pushed for a card whose link does not throw. *)
Definition record3 (baseUrl : string) (card : Card) : Listing :=
  listing3 card (linkOf baseUrl card).
Definition record5 (baseUrl : string) (card : Card) : Listing :=
  listing5 card (linkOf baseUrl card).


End WithUrl.
End Extractor.

(* ================================================================= *)
(** ** Search Resolver: the [page.evaluate] callback of [getZillowURL] *)

Module Resolver.

(** [searchResults.find((el) => el.textContent?.includes("Zillow"))] *)
Definition findZillow (searchResults : list Anchor) : option Anchor :=
  List.find (fun el => Js.includes (textContent el) "Zillow") searchResults.

(** [return zillowResult ? zillowResult.getAttribute("href") : null] *)
Definition extractZillowUrl (doc : Document) : option string :=
  let searchResults := resultAnchors doc in
  match findZillow searchResults with
  | Some zillowResult => href zillowResult
  | None => None
  end.

End Resolver.

(* ================================================================= *)
(** ** The browser, and the monad of an [async] function *)

(** What a rejected promise carries. *)
Inductive Err : Type :=
| LaunchError                       (** [puppeteer.launch] failed *)
| TimeoutError (selector : string)  (** [page.waitForSelector] timed out *)
| NavigationError (url : string)    (** [page.goto] / [waitForNavigation] failed *)
| JsError (message : string)        (** [throw new Error(message)] *)
| CallRejected (call : string)      (** another awaited call of the page rejected *)
| EvaluationFailed (message : string).
                                    (** the callback of [page.evaluate] threw *)

(** [error.toString()] *)
Definition Err_toString (e : Err) : string :=
  match e with
  | LaunchError => "Error: Failed to launch the browser process!"
  | TimeoutError sel => "TimeoutError: Waiting for selector `" ++ sel ++ "` failed"
  | NavigationError url => "Error: navigation failed at " ++ url
  | JsError message => "Error: " ++ message
  | CallRejected call => "Error: " ++ call ++ " failed"
  | EvaluationFailed message => "Error: Evaluation failed: TypeError: " ++ message
  end.

(** [req.body] after [express.json()]: the two fields the handlers read,
    each any JSON value, [None] when the field is missing. *)
Record Body : Type := mkBody {
  query : option Json;
  city : option Json
}.

Inductive Payload : Type :=
| ErrorPayload (error : string)
| ResultPayload (searchQuery : option Json) (cityField : option Json)
                (listings : list Listing).

(** [res.status(code).json(payload)]; [res.json] alone answers 200. *)
Record Response : Type := mkResponse {
  status : nat;
  payload : Payload
}.

(** Calls made on the outside world, in the order they are issued. *)
Inductive Event : Type :=
| ELaunch                              (** [puppeteer.launch(..)] *)
| ENewPage                             (** [browser.newPage()] *)
| ESetNavTimeout (ms : N)              (** [page.setDefaultNavigationTimeout] *)
| ESetUserAgent (ua : string)          (** [page.setUserAgent] *)
| EResolve (q : string)                (** [getZillowURL(page, q)] entered *)
| EGoto (url : string)                 (** [page.goto(url, ..)] *)
| EDelay (ms : N)
| EWaitForSelector (selector : string)
| EType (text : string)
| EPressEnter
| EWaitForNavigation
| EFound (url : string)                (** [console.log("Found Zillow URL:", url)] *)
| EPage (pageCounter : nat)            (** [console.log(`Scraping page ${pageCounter}...`)] *)
| EAutoScroll                          (** [autoScroll(page)] *)
| EExtracted (listings : list Listing) (** the extractor callback returned [listings] *)
| EClose                               (** [browser.close()] *)
| ERespond (r : Response).             (** the answer written to [res] *)

(** How the promise of [autoScroll] ends. *)
Inductive ScrollEnd (W : Type) : Type :=
| Scrolled (w : W)      (** it resolves *)
| ScrollRejected        (** the call rejects *)
| ScrollPending.        (** it never settles *)
Arguments Scrolled {W} w.
Arguments ScrollRejected {W}.
Arguments ScrollPending {W}.

(** The browser process and the web behind it, for a world type [W].
    An operation that can reject returns [None] when it does. *)
Class Browser (W : Type) : Type := {
  puppeteer_launch : W -> option W;
  page_goto : string -> W -> option W;
  page_waitForSelector : string -> W -> option W;
  (** [page.$(selector)]: whether an element was found *)
  page_query : string -> W -> option bool;
  searchBox_type : string -> W -> option W;
  keyboard_press_Enter : W -> option W;
  page_waitForNavigation : W -> option W;
  page_autoScroll : W -> ScrollEnd W;
  (** the DOM that the callback of a [page.evaluate] reads; [None] when
      the call rejects before the callback runs *)
  page_evaluate : W -> option Document;
  browser_close : W -> W;
  elapse : N -> W -> W
}.

Inductive Outcome (A : Type) : Type :=
| Ok (a : A)          (** the promise resolved *)
| Throw (e : Err)     (** the promise rejected *)
| Pending             (** the promise never settles *)
| OutOfFuel.          (** the loop model ran out of fuel (shown below never
                          to happen) *)
Arguments Ok {A} a.
Arguments Throw {A} e.
Arguments Pending {A}.
Arguments OutOfFuel {A}.

Module Async.
Section Monad.
Context {W : Type}.

(** An [async] computation: from a world to its outcome, the world it
    leaves and the calls it made. *)
Definition M (A : Type) : Type := W -> Outcome A * W * list Event.

Definition ret {A} (a : A) : M A := fun w => (Ok a, w, []).

Definition bind {A B} (m : M A) (k : A -> M B) : M B :=
  fun w =>
    match m w with
    | (Ok a, w1, e1) =>
        match k a w1 with (o, w2, e2) => (o, w2, e1 ++ e2) end
    | (Throw e, w1, e1) => (Throw e, w1, e1)
    | (Pending, w1, e1) => (Pending, w1, e1)
    | (OutOfFuel, w1, e1) => (OutOfFuel, w1, e1)
    end.

Definition throw {A} (e : Err) : M A := fun w => (Throw e, w, []).

Definition outOfFuel {A} : M A := fun w => (OutOfFuel, w, []).

(** [try { m } catch (error) { h error }] *)
Definition tryCatch {A} (m : M A) (h : Err -> M A) : M A :=
  fun w =>
    match m w with
    | (Throw e, w1, e1) =>
        match h e w1 with (o, w2, e2) => (o, w2, e1 ++ e2) end
    | r => r
    end.

Definition emit (ev : Event) : M unit := fun w => (Ok tt, w, [ev]).

(** A call that always resolves. *)
Definition call (ev : Event) (f : W -> W) : M unit :=
  fun w => (Ok tt, f w, [ev]).

(** A call that rejects with [e], or never settles when [e] is [None]. *)
Definition callOr (ev : Event) (f : W -> option W) (e : option Err) : M unit :=
  fun w =>
    match f w with
    | Some w' => (Ok tt, w', [ev])
    | None => (match e with Some e => Throw e | None => Pending end, w, [ev])
    end.

(** An awaited read of the page that leaves no trace: it rejects with [e]
    when the call does. *)
Definition readOr {A} (f : W -> option A) (e : Err) : M A :=
  fun w =>
    match f w with
    | Some a => (Ok a, w, [])
    | None => (Throw e, w, [])
    end.

(** The three components of a run. *)
Definition outcome {A} (r : Outcome A * W * list Event) : Outcome A := fst (fst r).
Definition final {A} (r : Outcome A * W * list Event) : W := snd (fst r).
Definition events {A} (r : Outcome A * W * list Event) : list Event := snd r.

Definition ranOut {A} (o : Outcome A) : bool :=
  match o with OutOfFuel => true | _ => false end.

End Monad.
End Async.

Declare Scope async_scope.
Delimit Scope async_scope with async.
Notation "x <- m ;; k" := (Async.bind m (fun x => k))
  (at level 61, m at next level, right associativity) : async_scope.
Notation "m ;; k" := (Async.bind m (fun _ => k))
  (at level 61, right associativity) : async_scope.

Open Scope async_scope.

(* ================================================================= *)
(** ** services/puppeteer.service.ts and services/zillow.service.ts *)

Definition dquote : string := String (ascii_of_nat 34) EmptyString.

(** ['Please provide both "query" and "city".'] *)
Definition validationMessage : string :=
  "Please provide both " ++ dquote ++ "query" ++ dquote ++ " and "
   ++ dquote ++ "city" ++ dquote ++ ".".

(** ['textarea[name="q"]'] and ['input[name="q"]'] *)
Definition textareaSelector : string :=
  "textarea[name=" ++ dquote ++ "q" ++ dquote ++ "]".
Definition inputSelector : string :=
  "input[name=" ++ dquote ++ "q" ++ dquote ++ "]".

(** ['textarea[name="q"], input[name="q"]'] *)
Definition searchBoxSelector : string :=
  textareaSelector ++ ", " ++ inputSelector.

Definition userAgent : string :=
  "Mozilla/5.0 (Windows NT 10.0; Win64; x64) AppleWebKit/537.36 (KHTML, like Gecko) Chrome/110.0.0.0 Safari/537.36".

(** [`${v}`] for a [string | null] value that is known to be truthy. *)
Definition toStr (v : option string) : string :=
  match v with Some s => s | None => "null" end.

Section Services.
Context {W : Type} {browser : Browser W} {url_api : UrlApi}.

Local Abbreviation M := (@Async.M W).

(** [puppeteer.launch({ .. })] *)
Definition launchBrowser : M unit :=
  Async.callOr ELaunch puppeteer_launch (Some LaunchError).

(** [page.goto(url, { waitUntil: "domcontentloaded" })] *)
Definition goto (url : string) : M unit :=
  Async.callOr (EGoto url) (page_goto url) (Some (NavigationError url)).

Definition delay (ms : N) : M unit := Async.call (EDelay ms) (elapse ms).

(** [autoScroll(page)], a [page.evaluate] whose promise resolves when the
    scroll loop does ([ScrollDriver] below models the loop itself). *)
Definition autoScroll : M unit :=
  fun w =>
    match page_autoScroll w with
    | Scrolled w' => (Ok tt, w', [EAutoScroll])
    | ScrollRejected => (Throw (CallRejected "page.evaluate"), w, [EAutoScroll])
    | ScrollPending => (Pending, w, [EAutoScroll])
    end.

(** [await page.evaluate(callback)] for a callback that cannot throw. *)
Definition evaluate {A} (callback : Document -> A) : M A :=
  Async.readOr (fun w => option_map callback (page_evaluate w))
               (CallRejected "page.evaluate").

(** [await page.evaluate(callback)] for the extractor callbacks: the promise
    rejects when the callback throws. *)
Definition evaluateListings (callback : Document -> Try (list Listing))
  : M (list Listing) :=
  fun w =>
    match page_evaluate w with
    | None => (Throw (CallRejected "page.evaluate"), w, [])
    | Some doc =>
        match callback doc with
        | Returns listings => (Ok listings, w, [EExtracted listings])
        | Raises message => (Throw (EvaluationFailed message), w, [])
        end
    end.

(** [await page.$(selector)] *)
Definition pageQuery (selector : string) : M bool :=
  Async.readOr (page_query selector) (CallRejected "page.$").

Definition close : M unit := Async.call EClose browser_close.

Definition respond (code : nat) (p : Payload) : M unit :=
  Async.emit (ERespond (mkResponse code p)).

(** [getZillowURL(page, query)]; the copies in zillow.service.ts, scrape.ts
    and the single-page variant differ in their log messages only. *)
Definition getZillowURL (q : string) : M (option string) :=
  Async.emit (EResolve q) ;;
  goto "https://www.bing.com/" ;;
  delay 3000%N ;;
  Async.callOr (EWaitForSelector searchBoxSelector)
               (page_waitForSelector searchBoxSelector)
               (Some (TimeoutError searchBoxSelector)) ;;
  textarea <- pageQuery textareaSelector ;;
  searchBox <- (if textarea then Async.ret true else pageQuery inputSelector) ;;
  if negb searchBox then Async.throw (JsError "Search box not found.")
  else
    Async.callOr (EType q) (searchBox_type q)
                 (Some (CallRejected "searchBox.type")) ;;
    Async.callOr EPressEnter keyboard_press_Enter
                 (Some (CallRejected "keyboard.press")) ;;
    Async.callOr EWaitForNavigation page_waitForNavigation
                 (Some (NavigationError "")) ;;
    zillowUrl <- evaluate Resolver.extractZillowUrl ;;
    Async.ret zillowUrl.

Definition maxPages : nat := 4.

(** [`${baseUrl}${pageCounter}_p/`] *)
Definition nextPageUrl (baseUrl : string) (pageCounter : nat) : string :=
  baseUrl ++ Js.ofNat pageCounter ++ "_p/".

End Services.

(* ----------------------------------------------------------------- *)
(** *** scraper.controller.ts with zillow.service.ts *)

Module Controller.
Section Handler.
Context {W : Type} {browser : Browser W} {url_api : UrlApi}.
Local Abbreviation M := (@Async.M W).

(** The [while (pageCounter <= maxPages)] loop of [scrapeZillowListings];
    [fuel] bounds the number of iterations of the model. *)
Fixpoint whileLoop (fuel : nat) (baseUrl : string) (pageCounter : nat)
                   (allListings : list Listing) : M (list Listing) :=
  match fuel with
  | O => Async.outOfFuel
  | S fuel' =>
      if (pageCounter <=? maxPages)%nat then
        Async.emit (EPage pageCounter) ;;
        autoScroll ;;
        listings <- evaluateListings Extractor.extract3 ;;
        let allListings := allListings ++ listings in
        let pageCounter := pageCounter + 1 in
        goto (nextPageUrl baseUrl pageCounter) ;;
        whileLoop fuel' baseUrl pageCounter allListings
      else Async.ret allListings
  end.

Definition scrapeZillowListings (baseUrl : string) : M (list Listing) :=
  let allListings := [] in
  let pageCounter := 1 in
  whileLoop (S maxPages) baseUrl pageCounter allListings.

Definition scrapeListings (body : Body) : M unit :=
  Async.tryCatch
    (let query := query body in
     let city := city body in
     if negb (JsonValue.truthy query) || negb (JsonValue.truthy city) then
       respond 400 (ErrorPayload validationMessage)
     else
       launchBrowser ;;
       Async.emit ENewPage ;;
       Async.emit (ESetNavTimeout 60000%N) ;;
       zillowUrl <- getZillowURL (JsonValue.toStr query ++ " " ++ JsonValue.toStr city) ;;
       if negb (Js.truthy zillowUrl) then
         Async.throw (JsError "No Zillow link found.")
       else
         let zillowUrl := toStr zillowUrl in
         Async.emit (EFound zillowUrl) ;;
         goto zillowUrl ;;
         listings <- scrapeZillowListings zillowUrl ;;
         close ;;
         respond 200 (ResultPayload query city listings))
    (fun error => respond 500 (ErrorPayload (Err_toString error))).

End Handler.
End Controller.

(* ----------------------------------------------------------------- *)
(** *** scrape.ts *)

Module ScrapeTs.
Section Handler.
Context {W : Type} {browser : Browser W} {url_api : UrlApi}.
Local Abbreviation M := (@Async.M W).

(** The loop of [scrapeZillowListings] in scrape.ts: it leaves at the first
    page whose extraction is empty. Both arms of the conditional that builds
    [nextPageUrl] are the same template. *)
Fixpoint whileLoop (fuel : nat) (baseUrl : string) (pageCounter : nat)
                   (allListings : list Listing) : M (list Listing) :=
  match fuel with
  | O => Async.outOfFuel
  | S fuel' =>
      if (pageCounter <=? maxPages)%nat then
        Async.emit (EPage pageCounter) ;;
        autoScroll ;;
        listings <- evaluateListings Extractor.extract3 ;;
        if (List.length listings =? 0)%nat then
          Async.ret allListings                      (* break *)
        else
          let allListings := allListings ++ listings in
          let pageCounter := pageCounter + 1 in
          let nextUrl := if (pageCounter =? 2)%nat
                         then nextPageUrl baseUrl pageCounter
                         else nextPageUrl baseUrl pageCounter in
          goto nextUrl ;;
          whileLoop fuel' baseUrl pageCounter allListings
      else Async.ret allListings
  end.

Definition scrapeZillowListings (baseUrl : string) : M (list Listing) :=
  let allListings := [] in
  let pageCounter := 1 in
  whileLoop (S maxPages) baseUrl pageCounter allListings.

(** [zillowUrl.endsWith("/") ? zillowUrl : `${zillowUrl}/`] *)
Definition normalizeBase (zillowUrl : string) : string :=
  if Js.endsWith zillowUrl "/" then zillowUrl else zillowUrl ++ "/".

Definition scrapeHandler (body : Body) : M unit :=
  Async.tryCatch
    (let query := query body in
     let city := city body in
     if negb (JsonValue.truthy query) || negb (JsonValue.truthy city) then
       respond 400 (ErrorPayload validationMessage)
     else
       launchBrowser ;;
       Async.emit ENewPage ;;
       Async.emit (ESetNavTimeout 60000%N) ;;
       Async.emit (ESetUserAgent userAgent) ;;
       zillowUrl <- getZillowURL (JsonValue.toStr query ++ " " ++ JsonValue.toStr city) ;;
       if negb (Js.truthy zillowUrl) then
         Async.throw (JsError "No Zillow link found in search results.")
       else
         let zillowUrl := toStr zillowUrl in
         Async.emit (EFound zillowUrl) ;;
         let baseUrl := normalizeBase zillowUrl in
         goto baseUrl ;;
         listings <- scrapeZillowListings baseUrl ;;
         close ;;
         respond 200 (ResultPayload query city listings))
    (fun error => respond 500 (ErrorPayload (Err_toString error))).

End Handler.
End ScrapeTs.

(* ----------------------------------------------------------------- *)
(** *** The single-page variant (records with beds and baths) *)

Module SinglePage.
Section Handler.
Context {W : Type} {browser : Browser W} {url_api : UrlApi}.
Local Abbreviation M := (@Async.M W).

Definition scrapeZillowListings : M (list Listing) :=
  autoScroll ;;
  evaluateListings Extractor.extract5.

Definition scrapeHandler (body : Body) : M unit :=
  Async.tryCatch
    (let query := query body in
     let city := city body in
     if negb (JsonValue.truthy query) || negb (JsonValue.truthy city) then
       respond 400 (ErrorPayload validationMessage)
     else
       launchBrowser ;;
       Async.emit ENewPage ;;
       Async.emit (ESetNavTimeout 60000%N) ;;
       Async.emit (ESetUserAgent userAgent) ;;
       zillowUrl <- getZillowURL (JsonValue.toStr query ++ " " ++ JsonValue.toStr city) ;;
       if negb (Js.truthy zillowUrl) then
         Async.throw (JsError "No Zillow link found in search results.")
       else
         let zillowUrl := toStr zillowUrl in
         Async.emit (EFound zillowUrl) ;;
         goto zillowUrl ;;
         listings <- scrapeZillowListings ;;
         close ;;
         respond 200 (ResultPayload query city listings))
    (fun error => respond 500 (ErrorPayload (Err_toString error))).

End Handler.
End SinglePage.

(* ================================================================= *)
(** ** Scroll Driver: the [setInterval] callback of [autoScroll] *)

Module ScrollDriver.

Open Scope Z_scope.

Record State : Type := mkState {
  totalHeight : Z;     (** [let totalHeight] *)
  scrolledBy : Z;      (** sum of the [window.scrollBy(0, distance)] requests *)
  resolved : bool      (** [clearInterval(timer); resolve()] was reached *)
}.

Definition distance : Z := 100.

Definition initial : State := mkState 0 0 false.

(** One firing of the timer; [scrollHeight] is [document.body.scrollHeight]
    as read at this firing. *)
Definition tick (scrollHeight : Z) (st : State) : State :=
  let scrolledBy := scrolledBy st + distance in
  let totalHeight := totalHeight st + distance in
  mkState totalHeight scrolledBy (totalHeight >=? scrollHeight).

(** The firings [k], [k+1], .. until the promise resolves; [heights j] is the
    height read at firing [j] (the timer fires every 300 ms; the model
    counts firings and has no clock). [None]: not resolved
    within [fuel] firings. *)
Fixpoint run (fuel : nat) (heights : nat -> Z) (k : nat) (st : State)
  : option (nat * State) :=
  match fuel with
  | O => None
  | S fuel' =>
      let st' := tick (heights k) st in
      if resolved st' then Some (k, st')
      else run fuel' heights (S k) st'
  end.

Definition autoScroll (heights : nat -> Z) (fuel : nat) : option (nat * State) :=
  run fuel heights 1%nat initial.

(** The promise resolves, at some firing. *)
Definition completes (heights : nat -> Z) : Prop :=
  exists fuel k st, autoScroll heights fuel = Some (k, st).

(** The promise is still pending after any number of firings. *)
Definition neverCompletes (heights : nat -> Z) : Prop :=
  forall fuel, autoScroll heights fuel = None.

Definition growsWithoutBound (heights : nat -> Z) : Prop :=
  forall bound : Z, exists k, bound < heights k.

Definition eventuallyConstant (heights : nat -> Z) : Prop :=
  exists (k0 : nat) (c : Z), forall k, (k0 <= k)%nat -> heights k = c.

End ScrollDriver.

(* ================================================================= *)
(** ** What a trace shows *)

Module Trace.

(** The targets of the [page.goto] calls, in order. *)
Fixpoint gotoUrls (evs : list Event) : list string :=
  match evs with
  | [] => []
  | EGoto url :: evs' => url :: gotoUrls evs'
  | _ :: evs' => gotoUrls evs'
  end.

(** What the extractor returned, page after page. *)
Fixpoint extractions (evs : list Event) : list (list Listing) :=
  match evs with
  | [] => []
  | EExtracted l :: evs' => l :: extractions evs'
  | _ :: evs' => extractions evs'
  end.

(** The values of [pageCounter] at which the loop body was entered. *)
Fixpoint cursors (evs : list Event) : list nat :=
  match evs with
  | [] => []
  | EPage n :: evs' => n :: cursors evs'
  | _ :: evs' => cursors evs'
  end.

Definition isLaunch (e : Event) : bool :=
  match e with ELaunch => true | _ => false end.
Definition isClose (e : Event) : bool :=
  match e with EClose => true | _ => false end.
Definition isResolve (e : Event) : bool :=
  match e with EResolve _ => true | _ => false end.

Definition count (p : Event -> bool) (evs : list Event) : nat :=
  List.length (List.filter p evs).

(** The events that follow the first [EFound]. *)
Fixpoint afterFound (evs : list Event) : list Event :=
  match evs with
  | [] => []
  | EFound _ :: evs' => evs'
  | _ :: evs' => afterFound evs'
  end.

(** The events before the first answer. *)
Fixpoint beforeRespond (evs : list Event) : list Event :=
  match evs with
  | [] => []
  | ERespond _ :: _ => []
  | e :: evs' => e :: beforeRespond evs'
  end.

(** The answers written, in order. *)
Fixpoint responses (evs : list Event) : list Response :=
  match evs with
  | [] => []
  | ERespond r :: evs' => r :: responses evs'
  | _ :: evs' => responses evs'
  end.

End Trace.

(* ================================================================= *)
(** ** A concrete web, to run the handlers on *)

Module TestWeb.

Record World : Type := mkWorld {
  current : Document;                   (** the DOM of the page *)
  site : string -> option Document;     (** what [page.goto] finds, [None]: it fails *)
  searchResults : Document;             (** the page the search submits to *)
  launches : bool;                      (** whether the browser can start *)
  openBrowsers : nat                    (** browser processes alive *)
}.

Definition emptyDocument : Document := mkDocument "" [] [].

Definition load (d : Document) (w : World) : World :=
  mkWorld d (site w) (searchResults w) (launches w) (openBrowsers w).

#[export] Instance browser : Browser World := {
  puppeteer_launch w :=
    if launches w
    then Some (mkWorld emptyDocument (site w) (searchResults w) (launches w)
                       (S (openBrowsers w)))
    else None;
  page_goto url w := option_map (fun d => load d w) (site w url);
  page_waitForSelector _ w := Some w;
  page_query _ _ := Some true;
  searchBox_type _ w := Some w;
  keyboard_press_Enter w := Some w;
  page_waitForNavigation w := Some (load (searchResults w) w);
  page_autoScroll w := Scrolled w;
  page_evaluate w := Some (current w);
  browser_close w :=
    mkWorld (current w) (site w) (searchResults w) (launches w)
            (pred (openBrowsers w));
  elapse _ w := w
}.

(** A URL parser for the test pages, for a base that is an origin. It
    follows the URL standard on http and https links, on links that start
    with two slashes and on paths, as long as the host is in lower case
    without port or credentials, no segment is a dot segment, there is no
    backslash, tab or line break inside the link, and the space is the only
    character after the host that the standard escapes: control characters
    and spaces around the link are dropped, slashes in front of the host
    are skipped, a missing path becomes a slash, a space becomes %20, and a
    link whose host is empty does not parse. *)
Definition isC0Space (c : ascii) : bool := Nat.leb (nat_of_ascii c) 32.

Fixpoint dropStart (s : string) : string :=
  match s with
  | EmptyString => EmptyString
  | String c s' => if isC0Space c then dropStart s' else s
  end.

Fixpoint dropEnd (s : string) : string :=
  match s with
  | EmptyString => EmptyString
  | String c s' =>
      match dropEnd s' with
      | EmptyString => if isC0Space c then EmptyString else String c EmptyString
      | r => String c r
      end
  end.

(** The host (with its port) at the head of [s], and what follows it. *)
Fixpoint authority (s : string) : string * string :=
  match s with
  | EmptyString => (EmptyString, EmptyString)
  | String c s' =>
      if (Ascii.eqb c "/" || Ascii.eqb c "?" || Ascii.eqb c "#")%bool
      then (EmptyString, s)
      else let (a, r) := authority s' in (String c a, r)
  end.

Fixpoint encode (s : string) : string :=
  match s with
  | EmptyString => EmptyString
  | String c s' =>
      if Ascii.eqb c " " then ("%20" ++ encode s')%string
      else String c (encode s')
  end.

Fixpoint scheme (s : string) : string :=
  match s with
  | EmptyString => EmptyString
  | String c s' => if Ascii.eqb c ":" then EmptyString else String c (scheme s')
  end.

Definition skip (n : nat) (s : string) : string :=
  String.substring n (String.length s - n) s.

Fixpoint dropSlashes (s : string) : string :=
  match s with
  | EmptyString => EmptyString
  | String c s' => if Ascii.eqb c "/" then dropSlashes s' else s
  end.

Definition withAuthority (sch rest : string) : option string :=
  let (a, r) := authority (dropSlashes rest) in
  if String.eqb a "" then None
  else Some (sch ++ "://" ++ a
               ++ (if String.prefix "/" r then encode r else "/" ++ encode r))%string.

Definition resolve (l base : string) : option string :=
  let l := dropEnd (dropStart l) in
  if String.prefix "https://" l then withAuthority "https" (skip 8 l)
  else if String.prefix "http://" l then withAuthority "http" (skip 7 l)
  else if String.prefix "//" l then withAuthority (scheme base) (skip 2 l)
  else if String.prefix "/" l then Some (base ++ encode l)%string
  else Some (base ++ "/" ++ encode l)%string.

#[export] Instance url_api : UrlApi := { URL_href := resolve }.

Definition bing : Document := mkDocument "https://www.bing.com" [] [].

Definition card1 : Card :=
  mkCard (Some "$500,000") (Some " 123 Main St, New York, NY ")
         (Some (Some "/homedetails/1_zpid/")) [].

Definition page1 : Document :=
  mkDocument "https://example-target.test" [] [card1].

Definition noCards : Document :=
  mkDocument "https://example-target.test" [] [].



Definition target : string := "https://example-target.test/new-york-ny/".

(** Search results whose second heading names the brand. *)
Definition hits (url : string) : Document :=
  mkDocument "https://www.bing.com"
    [mkAnchor "Homes for sale - Realtor" (Some "https://other.test/");
     mkAnchor "New York NY Real Estate | Zillow" (Some url);
     mkAnchor "Zillow: Rentals" (Some "https://example-target.test/rentals/")]
    [].

Definition misses : Document :=
  mkDocument "https://www.bing.com"
    [mkAnchor "Homes for sale - Realtor" (Some "https://other.test/");
     mkAnchor "zillow listings" (Some "https://example-target.test/lower/")]
    [].

(** Every page of the target has the one card of [page1]. *)
Definition siteAll (url : string) : option Document :=
  if String.eqb url "https://www.bing.com/" then Some bing else Some page1.

(** Page 1 has one card, every later page has none. *)
Definition siteOnePage (url : string) : option Document :=
  if String.eqb url "https://www.bing.com/" then Some bing
  else if String.eqb url target then Some page1
  else Some noCards.


(** Navigation to page 3 fails. *)
Definition sitePage3Down (url : string) : option Document :=
  if String.eqb url "https://www.bing.com/" then Some bing
  else if String.eqb url (target ++ "3_p/") then None
  else Some page1.

Definition world (s : string -> option Document) (results : Document) : World :=
  mkWorld emptyDocument s results true 0.

Definition request : Body :=
  mkBody (Some (JString "top home listings")) (Some (JString "New York")).

Definition tab : string := String (ascii_of_nat 9) EmptyString.

(** A card whose children exist and hold white space only; its link has no
    href attribute. *)
Definition blankCard : Card :=
  mkCard (Some "  ") (Some "") (Some None) [" "; tab].

(** A machine on which the browser does not start. *)
Definition noBrowser : World :=
  mkWorld emptyDocument siteAll (hits target) false 0.

(** The three handlers on this web. *)
Definition controller := @Controller.scrapeListings World browser url_api.
Definition scrapeTs := @ScrapeTs.scrapeHandler World browser url_api.
Definition singlePage := @SinglePage.scrapeHandler World browser url_api.

(** What a run shows: launches, closes, the status codes answered and the
    browser processes left alive. *)
Definition summary (r : Outcome unit * World * list Event)
  : nat * nat * list nat * nat :=
  (Trace.count Trace.isLaunch (Async.events r),
   Trace.count Trace.isClose (Async.events r),
   map status (Trace.responses (Async.events r)),
   openBrowsers (Async.final r)).

End TestWeb.

(* ================================================================= *)
(** ** Shapes of traces *)

(** The trace of the three handlers, which share one shape: [setup] are the
    page settings made after the launch, [notFound] the message thrown when
    no link is found, [normalize] what is done to the resolved URL before
    it is used, and [scrape] the pagination that follows. The lemmas
    [Controller_events], [ScrapeTs_events] and [SinglePage_events] show that
    each handler has this trace. *)
Section Expected.
Context {W : Type} {browser : Browser W} {url_api : UrlApi}.

Definition failure (e : Err) : Event :=
  ERespond (mkResponse 500 (ErrorPayload (Err_toString e))).

Definition expectedEvents (setup : list Event) (notFound : string)
    (normalize : string -> string)
    (scrape : string -> @Async.M W (list Listing))
    (body : Body) (w : W) : list Event :=
  if negb (JsonValue.truthy (query body)) || negb (JsonValue.truthy (city body)) then
    [ERespond (mkResponse 400 (ErrorPayload validationMessage))]
  else
    match puppeteer_launch w with
    | None => [ELaunch; failure LaunchError]
    | Some w0 =>
        match getZillowURL (JsonValue.toStr (query body) ++ " " ++ JsonValue.toStr (city body)) w0 with
        | (o1, w1, evs1) =>
            ELaunch :: setup ++ evs1 ++
            match o1 with
            | Ok z =>
                if Js.truthy z then
                  let baseUrl := normalize (toStr z) in
                  EFound (toStr z) :: EGoto baseUrl ::
                  match page_goto baseUrl w1 with
                  | None => [failure (NavigationError baseUrl)]
                  | Some w2 =>
                      match scrape baseUrl w2 with
                      | (o2, w3, evs2) =>
                          evs2 ++
                          match o2 with
                          | Ok l =>
                              [EClose;
                               ERespond (mkResponse 200
                                 (ResultPayload (query body) (city body) l))]
                          | Throw e => [failure e]
                          | Pending | OutOfFuel => []
                          end
                      end
                  end
                else [failure (JsError notFound)]
            | Throw e => [failure e]
            | Pending | OutOfFuel => []
            end
        end
    end.

End Expected.

(** Events that only a handler issues itself. *)
Definition handlerOnly (e : Event) : bool :=
  match e with
  | ELaunch | EClose | ERespond _ | EFound _ => true
  | _ => false
  end.

(** A trace without any of them. *)
Definition plain (evs : list Event) : Prop :=
  forallb (fun e => negb (handlerOnly e)) evs = true.

(** [l] is an initial segment of [full]. *)
Definition Prefix {A} (l full : list A) : Prop := exists rest, full = l ++ rest.

(** [s] ends with [sep] and not with [sep] twice. *)
Definition endsWithExactlyOne (s sep : string) : bool :=
  Js.endsWith s sep && negb (Js.endsWith s (sep ++ sep)).

(** [t] occurs in [s]. *)
Definition Substring (t s : string) : Prop :=
  exists pre post : string, s = (pre ++ t ++ post)%string.

(** The texts typed into the search box, in order. *)
Fixpoint typed (evs : list Event) : list string :=
  match evs with
  | [] => []
  | EType text :: evs' => text :: typed evs'
  | _ :: evs' => typed evs'
  end.

(** What a run of [getZillowURL] has done once the search box is known to
    be there or not. *)
Definition resolverPrologue (q : string) : list Event :=
  [EResolve q; EGoto "https://www.bing.com/"; EDelay 3000%N;
   EWaitForSelector searchBoxSelector].

(** A complete run of [getZillowURL]. *)
Definition resolverSteps (q : string) : list Event :=
  resolverPrologue q ++ [EType q; EPressEnter; EWaitForNavigation].

(** How a call that does not resolve ends: it rejects with an error, or
    never settles ([None]). *)
Definition stopped {A} (e : option Err) : Outcome A :=
  match e with Some e => Throw e | None => Pending end.

(** The scroll and the extraction of one page, [autoScroll(page)] followed
    by [page.evaluate(callback)]: the records and the world they leave, or
    how the first of the two that does not resolve ends. The step lemmas of
    the loops show that each turn is this. *)
Section PageTurn.
Context {W : Type} {browser : Browser W}.

Definition pageTurn (callback : Document -> Try (list Listing)) (w : W)
  : (list Listing * W) + (option Err * W) :=
  match page_autoScroll w with
  | Scrolled w1 =>
      match page_evaluate w1 with
      | Some doc =>
          match callback doc with
          | Returns listings => inl (listings, w1)
          | Raises message => inr (Some (EvaluationFailed message), w1)
          end
      | None => inr (Some (CallRejected "page.evaluate"), w1)
      end
  | ScrollRejected => inr (Some (CallRejected "page.evaluate"), w)
  | ScrollPending => inr (None, w)
  end.

End PageTurn.

(** The outcome of the three handlers, beside [expectedEvents]. *)
Section ExpectedOutcome.
Context {W : Type} {browser : Browser W} {url_api : UrlApi}.

Definition expectedOutcome (normalize : string -> string)
    (scrape : string -> @Async.M W (list Listing))
    (body : Body) (w : W) : Outcome unit :=
  if negb (JsonValue.truthy (query body)) || negb (JsonValue.truthy (city body)) then Ok tt
  else
    match puppeteer_launch w with
    | None => Ok tt
    | Some w0 =>
        match getZillowURL (JsonValue.toStr (query body) ++ " " ++ JsonValue.toStr (city body)) w0 with
        | (Ok z, w1, _) =>
            if Js.truthy z then
              match page_goto (normalize (toStr z)) w1 with
              | None => Ok tt
              | Some w2 =>
                  match scrape (normalize (toStr z)) w2 with
                  | (Ok _, _, _) | (Throw _, _, _) => Ok tt
                  | (Pending, _, _) => Pending
                  | (OutOfFuel, _, _) => OutOfFuel
                  end
              end
            else Ok tt
        | (Throw _, _, _) => Ok tt
        | (Pending, _, _) => Pending
        | (OutOfFuel, _, _) => OutOfFuel
        end
    end.

End ExpectedOutcome.

(** The events of a pagination: cursor log, scroll, extraction, navigation. *)
Definition paginationEvent (e : Event) : bool :=
  match e with
  | EPage _ | EAutoScroll | EExtracted _ | EGoto _ => true
  | _ => false
  end.

(** The page settings a handler makes before it resolves the target. *)
Definition settingEvent (e : Event) : bool :=
  match e with
  | ENewPage | ESetNavTimeout _ | ESetUserAgent _ => true
  | _ => false
  end.

(** White space only. *)
Definition blank (s : string) : bool :=
  forallb Js.isSpace (list_ascii_of_string s).

(** [s] is not empty and neither starts nor ends with white space. *)
Definition Trimmed (s : string) : Prop :=
  s <> ""%string
  /\ (forall c rest, s = String c rest -> Js.isSpace c = false)
  /\ (forall init c, s = (init ++ String c "")%string -> Js.isSpace c = false).

(** [s] is [t] without white space around it. *)
Definition Inside (s t : string) : Prop :=
  exists l r : string, t = (l ++ s ++ r)%string /\ blank l = true /\ blank r = true.

(** A record without its [beds] and [baths] keys. *)
Definition dropDetails (r : Listing) : Listing :=
  mkListing (price r) (address r) (link r) None None.

(** The first [n] entries of the details list of a card. *)
Definition keepDetails (n : nat) (card : Card) : Card :=
  mkCard (priceText card) (addrText card) (linkHref card)
         (firstn n (detailsList card)).

(* ================================================================= *)
(** * Properties *)

(** ** Strings *)

Open Scope string_scope.

Lemma prefix_spec (t s : string) :
  String.prefix t s = true <-> exists post, s = t ++ post.
Proof.
  revert s; induction t as [|c t IH]; intros s.
  - destruct s; simpl; (split; [intros _; eexists; reflexivity | reflexivity]).
  - destruct s as [|d s]; simpl.
    + split; [discriminate | intros [post H]; discriminate].
    + destruct (Ascii.ascii_dec c d) as [->|ne].
      * rewrite IH. split; intros [post H]; exists post.
        -- now rewrite H.
        -- now inversion H.
      * split; [discriminate|]. intros [post H]. inversion H. congruence.
Qed.

Lemma includes_spec (s t : string) :
  Js.includes s t = true <-> Substring t s.
Proof.
  unfold Substring. induction s as [|c s IH].
  - change (Js.includes "" t) with (if String.prefix t "" then true else false).
    destruct (String.prefix t "") eqn:E.
    + split; [intros _|reflexivity].
      apply prefix_spec in E as [post E]. exists "", post. exact E.
    + split; [discriminate|]. intros (pre & post & H).
      destruct pre; [|discriminate]. simpl in H.
      assert (String.prefix t "" = true) by (apply prefix_spec; now exists post).
      congruence.
  - change (Js.includes (String c s) t)
      with (if String.prefix t (String c s) then true else Js.includes s t).
    destruct (String.prefix t (String c s)) eqn:E.
    + split; [intros _|reflexivity].
      apply prefix_spec in E as [post E]. exists "", post. exact E.
    + rewrite IH. split; intros (pre & post & H).
      * exists (String c pre), post. simpl. now rewrite H.
      * destruct pre as [|d pre]; simpl in H.
        -- assert (String.prefix t (String c s) = true)
             by (apply prefix_spec; now exists post).
           congruence.
        -- inversion H. now exists pre, post.
Qed.

Lemma append_nil_r (s : string) : s ++ "" = s.
Proof. induction s; simpl; congruence. Qed.

Lemma append_assoc (a b c : string) : (a ++ b) ++ c = a ++ b ++ c.
Proof. induction a; simpl; congruence. Qed.

Lemma length_append (a b : string) :
  String.length (a ++ b) = String.length a + String.length b.
Proof. induction a; simpl; congruence. Qed.

Lemma substring_all (s : string) : String.substring 0 (String.length s) s = s.
Proof. induction s; simpl; congruence. Qed.

Lemma substring_skip (p t : string) :
  String.substring (String.length p) (String.length t) (p ++ t) = t.
Proof. induction p; simpl; [apply substring_all | assumption]. Qed.

Lemma substring_split (n : nat) (s : string) :
  n <= String.length s ->
  exists p, s = p ++ String.substring n (String.length s - n) s
            /\ String.length p = n.
Proof.
  revert s; induction n as [|n IH]; intros s Hle.
  - exists "". rewrite Nat.sub_0_r, substring_all. now split.
  - destruct s as [|c s]; simpl in Hle; [lia|].
    destruct (IH s) as (p & Hp & Hlen); [lia|].
    exists (String c p). simpl. split; [now rewrite <- Hp | now rewrite Hlen].
Qed.

Lemma endsWith_spec (s t : string) :
  Js.endsWith s t = true <-> exists p, s = p ++ t.
Proof.
  unfold Js.endsWith. split.
  - destruct (Nat.leb_spec (String.length t) (String.length s)) as [Hle|]; [|discriminate].
    intros H. apply String.eqb_eq in H.
    destruct (substring_split (String.length s - String.length t) s) as (p & Hp & _); [lia|].
    exists p.
    replace (String.length s - (String.length s - String.length t))
      with (String.length t) in Hp by lia.
    now rewrite H in Hp.
  - intros [p ->]. rewrite length_append.
    destruct (Nat.leb_spec (String.length t) (String.length p + String.length t)); [|lia].
    replace (String.length p + String.length t - String.length t)
      with (String.length p) by lia.
    rewrite substring_skip. apply String.eqb_refl.
Qed.

Lemma trimStart_blank (s : string) :
  Js.trimStart s = "" <-> forallb Js.isSpace (list_ascii_of_string s) = true.
Proof.
  induction s as [|c s IH]; cbn [Js.trimStart list_ascii_of_string forallb].
  - now split.
  - destruct (Js.isSpace c); cbn [andb]; [exact IH | split; discriminate].
Qed.

Lemma trimEnd_blank (s : string) :
  Js.trimEnd s = "" <-> forallb Js.isSpace (list_ascii_of_string s) = true.
Proof.
  induction s as [|c s IH]; cbn [Js.trimEnd list_ascii_of_string forallb].
  - now split.
  - destruct (Js.trimEnd s) eqn:E.
    + destruct (Js.isSpace c); cbn [andb].
      * split; [intros _; now apply IH | reflexivity].
      * split; discriminate.
    + split; [discriminate|]. intros H. apply andb_prop in H as [_ H].
      apply IH in H. discriminate.
Qed.

Lemma trimStart_head (s : string) :
  match Js.trimStart s with
  | "" => True
  | String c _ => Js.isSpace c = false
  end.
Proof.
  induction s as [|c s IH]; cbn [Js.trimStart]; [exact I|].
  destruct (Js.isSpace c) eqn:E; [exact IH | exact E].
Qed.

(** The text trims to the empty string exactly when it holds white space
    only. *)
Lemma trim_blank (s : string) :
  Js.trim s = "" <-> forallb Js.isSpace (list_ascii_of_string s) = true.
Proof.
  unfold Js.trim. split.
  - intros H. apply trimEnd_blank in H. apply trimStart_blank.
    pose proof (trimStart_head s) as Hh.
    destruct (Js.trimStart s) as [|c t]; [reflexivity|].
    cbn [list_ascii_of_string forallb] in H. rewrite Hh in H. discriminate.
  - intros H. apply trimStart_blank in H. now rewrite H.
Qed.

Example trim_examples :
  Js.trim "  $500,000 " = "$500,000"
  /\ Js.trim " 2 bds" = "2 bds"
  /\ Js.trim "   " = ""
  /\ Js.trim "" = "".
Proof. repeat split. Qed.

Open Scope list_scope.

Lemma orNull_not_empty (v : option string) : Js.orNull v <> Some ""%string.
Proof.
  unfold Js.orNull, Js.truthy. destruct v as [s|]; [|discriminate].
  destruct (String.eqb_spec s ""); simpl; congruence.
Qed.

Lemma orNull_blank (t : string) :
  Js.trim t = ""%string -> Js.orNull (Some (Js.trim t)) = None.
Proof. intros ->. reflexivity. Qed.

(* ================================================================= *)
(** ** Listing Extractor *)

Section ExtractorFacts.
Context {url_api : UrlApi}.
Import Extractor.

Lemma fieldText_not_empty (el : option string) : fieldText el <> Some ""%string.
Proof. apply orNull_not_empty. Qed.

Lemma fieldText_blank (t : string) :
  Js.trim t = ""%string -> fieldText (Some t) = None.
Proof. intros H. unfold fieldText. simpl. now apply orNull_blank. Qed.

Lemma fieldDetail_not_empty (l : list string) (i : nat) :
  fieldDetail l i <> Some ""%string.
Proof.
  unfold fieldDetail. destruct (Nat.ltb i (length l)); [apply fieldText_not_empty | discriminate].
Qed.

Lemma fieldDetail_blank (l : list string) (i : nat) (t : string) :
  nth_error l i = Some t -> Js.trim t = ""%string -> fieldDetail l i = None.
Proof.
  intros Hn Ht. unfold fieldDetail. rewrite Hn.
  destruct (Nat.ltb i (length l)); [now apply fieldText_blank | reflexivity].
Qed.

Lemma fieldLink_raises (baseUrl : string) (el : option (option string))
      (message : string) :
  fieldLink baseUrl el = Raises message -> message = invalidUrl.
Proof.
  unfold fieldLink. destruct el as [[h|]|]; cbn; try discriminate.
  destruct (negb (String.eqb h "")); [|discriminate].
  destruct (URL_href h baseUrl); [discriminate|]. now intros [= <-].
Qed.

Lemma badLink_iff (baseUrl : string) (card : Card) :
  badLink baseUrl card = true
  <-> exists h, linkHref card = Some (Some h) /\ h <> ""%string
                /\ URL_href h baseUrl = None.
Proof.
  unfold badLink, fieldLink, Js.truthy.
  destruct (linkHref card) as [[h|]|]; cbn.
  - destruct (String.eqb_spec h ""); cbn [negb].
    + split; [discriminate|]. intros (h' & [= <-] & Hne & _). contradiction.
    + destruct (URL_href h baseUrl) eqn:E.
      * split; [discriminate|]. intros (h' & [= <-] & _ & E'). congruence.
      * split; [intros _; now exists h | reflexivity].
  - split; [discriminate | intros (h & H & _); discriminate].
  - split; [discriminate | intros (h & H & _); discriminate].
Qed.

Lemma forEach_push3 (baseUrl : string) (cards : list Card) (results : list Listing) :
  forEach (pushCard3 baseUrl) cards results
  = if existsb (badLink baseUrl) cards then Raises invalidUrl
    else Returns (results ++ map (record3 baseUrl) cards).
Proof.
  revert results; induction cards as [|c cards IH]; intros results; cbn [forEach existsb map].
  - now rewrite app_nil_r.
  - unfold pushCard3, badLink at 1, record3 at 1, linkOf.
    destruct (fieldLink baseUrl (linkHref c)) as [l|m] eqn:E; cbn [orb].
    + rewrite IH. destruct (existsb _ cards); [reflexivity|].
      now rewrite <- app_assoc.
    + now rewrite (fieldLink_raises _ _ _ E).
Qed.

Lemma forEach_push5 (baseUrl : string) (cards : list Card) (results : list Listing) :
  forEach (pushCard5 baseUrl) cards results
  = if existsb (badLink baseUrl) cards then Raises invalidUrl
    else Returns (results ++ map (record5 baseUrl) cards).
Proof.
  revert results; induction cards as [|c cards IH]; intros results; cbn [forEach existsb map].
  - now rewrite app_nil_r.
  - unfold pushCard5, badLink at 1, record5 at 1, linkOf.
    destruct (fieldLink baseUrl (linkHref c)) as [l|m] eqn:E; cbn [orb].
    + rewrite IH. destruct (existsb _ cards); [reflexivity|].
      now rewrite <- app_assoc.
    + now rewrite (fieldLink_raises _ _ _ E).
Qed.

Lemma extract3_map (doc : Document) :
  extract3 doc
  = if existsb (badLink (origin doc)) (propertyCards doc) then Raises invalidUrl
    else Returns (map (record3 (origin doc)) (propertyCards doc)).
Proof. unfold extract3. now rewrite forEach_push3. Qed.

Lemma extract5_map (doc : Document) :
  extract5 doc
  = if existsb (badLink (origin doc)) (propertyCards doc) then Raises invalidUrl
    else Returns (map (record5 (origin doc)) (propertyCards doc)).
Proof. unfold extract5. now rewrite forEach_push5. Qed.



(** C10. For the text fields price, address, beds and baths of both record
    shapes, whatever the link of the record: when the matching child element
    exists and its text trims to the empty string the field is null, and no
    record carries an empty string in any of these fields. *)
Theorem blank_text_field_is_null (card : Card) (link3 link5 : option string) :
  let r3 := listing3 card link3 in
  let r5 := listing5 card link5 in
  (forall t, priceText card = Some t -> Js.trim t = ""%string ->
             price r3 = None /\ price r5 = None)
  /\ (forall t, addrText card = Some t -> Js.trim t = ""%string ->
                address r3 = None /\ address r5 = None)
  /\ (forall t, nth_error (detailsList card) 0 = Some t -> Js.trim t = ""%string ->
                beds r5 = Some None)
  /\ (forall t, nth_error (detailsList card) 1 = Some t -> Js.trim t = ""%string ->
                baths r5 = Some None)
  /\ (price r3 <> Some ""%string /\ address r3 <> Some ""%string
      /\ price r5 <> Some ""%string /\ address r5 <> Some ""%string
      /\ beds r5 <> Some (Some ""%string) /\ baths r5 <> Some (Some ""%string)).
Proof.
  intros r3 r5. subst r3 r5. unfold listing3, listing5. simpl.
  split; [|split; [|split; [|split]]].
  - intros t -> Ht. split; now apply fieldText_blank.
  - intros t -> Ht. split; now apply fieldText_blank.
  - intros t Hn Ht. f_equal. now apply (fieldDetail_blank _ _ t).
  - intros t Hn Ht. f_equal. now apply (fieldDetail_blank _ _ t).
  - repeat split; try apply fieldText_not_empty;
      intros H; injection H; apply fieldDetail_not_empty.
Qed.

End ExtractorFacts.

Lemma blank_text_field_is_null_witness :
  let r3 := Extractor.record3 (url_api := TestWeb.url_api) "https://o.test"
              TestWeb.blankCard in
  let r5 := Extractor.record5 (url_api := TestWeb.url_api) "https://o.test"
              TestWeb.blankCard in
  (price r3 = None /\ price r5 = None)
  /\ (address r3 = None /\ address r5 = None)
  /\ beds r5 = Some None
  /\ baths r5 = Some None.
Proof.
  intros r3 r5.
  destruct (blank_text_field_is_null TestWeb.blankCard None None)
    as (Hp & Ha & Hb & Hc & _).
  split; [apply (Hp "  "%string); reflexivity|].
  split; [apply (Ha ""%string); reflexivity|].
  split; [apply (Hb " "%string); reflexivity|].
  apply (Hc TestWeb.tab); reflexivity.
Defined.



(* ================================================================= *)
(** ** Search Resolver *)

Lemma find_first_match {A} (p : A -> bool) (l : list A) :
  (exists pre a post, l = pre ++ a :: post
                      /\ forallb (fun x => negb (p x)) pre = true
                      /\ p a = true /\ find p l = Some a)
  \/ (forallb (fun x => negb (p x)) l = true /\ find p l = None).
Proof.
  induction l as [|x l IH]; simpl.
  - right. now split.
  - destruct (p x) eqn:E.
    + left. exists [], x, l. now repeat split.
    + destruct IH as [(pre & a & post & -> & Hpre & Ha & Hf) | [Hall Hf]].
      * left. exists (x :: pre), a, post. simpl. rewrite E, Hpre. now repeat split.
      * right. now split.
Qed.

(** C7. The resolver's extraction scans the result-heading anchors in
    document order: either some anchor is the first whose text contains
    the code units of Zillow (no anchor before it does) and the result is the
    href attribute of that anchor, or no anchor's text contains them and the
    result is null; the call returns in both cases. *)
Theorem resolver_first_match (doc : Document) :
  (exists before a after,
      resultAnchors doc = before ++ a :: after
      /\ Forall (fun b => ~ Substring "Zillow" (textContent b)) before
      /\ Substring "Zillow" (textContent a)
      /\ Resolver.extractZillowUrl doc = href a)
  \/ (Forall (fun b => ~ Substring "Zillow" (textContent b)) (resultAnchors doc)
      /\ Resolver.extractZillowUrl doc = None).
Proof.
  unfold Resolver.extractZillowUrl, Resolver.findZillow.
  assert (Hneg : forall l : list Anchor,
             forallb (fun x => negb (Js.includes (textContent x) "Zillow")) l = true ->
             Forall (fun b => ~ Substring "Zillow" (textContent b)) l).
  { intros l H. rewrite forallb_forall in H. apply Forall_forall. intros b Hb.
    specialize (H b Hb). rewrite <- includes_spec.
    destruct (Js.includes (textContent b) "Zillow"); [discriminate | congruence]. }
  destruct (find_first_match (fun el => Js.includes (textContent el) "Zillow")
                             (resultAnchors doc))
    as [(pre & a & post & Hl & Hpre & Ha & Hf) | [Hall Hf]].
  - left. exists pre, a, post. rewrite Hf. repeat split; auto.
    now apply includes_spec.
  - right. rewrite Hf. split; auto.
Qed.

(** The match is case-sensitive, and a matching anchor without href yields
    null. *)
Example resolver_examples :
  Resolver.extractZillowUrl (TestWeb.hits "https://z.test/ny/") = Some "https://z.test/ny/"%string
  /\ Resolver.extractZillowUrl TestWeb.misses = None
  /\ Resolver.extractZillowUrl
       (mkDocument "" [mkAnchor "Zillow" None; mkAnchor "Zillow" (Some "u"%string)] [])
     = None.
Proof. repeat split. Qed.

(* ================================================================= *)
(** ** Pagination Controller *)

Lemma Prefix_nil {A} (l : list A) : Prefix [] l.
Proof. now exists l. Qed.

Lemma Prefix_cons {A} (x : A) (l full : list A) :
  Prefix l full -> Prefix (x :: l) (x :: full).
Proof. intros [rest ->]. now exists rest. Qed.

Lemma Prefix_length {A} (l full : list A) : Prefix l full -> length l <= length full.
Proof. intros [rest ->]. rewrite length_app. lia. Qed.

Create HintDb trace.
#[local] Hint Resolve Prefix_nil Prefix_cons : trace.

Section ResolverSteps.
Context {W : Type} {browser : Browser W}.

(** What a run of [getZillowURL] does, call by call. *)
Lemma getZillowURL_run (q : string) (w : W) :
  getZillowURL q w =
  match page_goto "https://www.bing.com/" w with
  | None => (Throw (NavigationError "https://www.bing.com/"), w,
             [EResolve q; EGoto "https://www.bing.com/"])
  | Some w1 =>
      match page_waitForSelector searchBoxSelector (elapse 3000%N w1) with
      | None => (Throw (TimeoutError searchBoxSelector), elapse 3000%N w1,
                 resolverPrologue q)
      | Some w2 =>
          match (match page_query textareaSelector w2 with
                 | Some true => Some true
                 | Some false => page_query inputSelector w2
                 | None => None
                 end) with
          | None => (Throw (CallRejected "page.$"), w2, resolverPrologue q)
          | Some false => (Throw (JsError "Search box not found."), w2,
                           resolverPrologue q)
          | Some true =>
              match searchBox_type q w2 with
              | None => (Throw (CallRejected "searchBox.type"), w2,
                         resolverPrologue q ++ [EType q])
              | Some w3 =>
                  match keyboard_press_Enter w3 with
                  | None => (Throw (CallRejected "keyboard.press"), w3,
                             resolverPrologue q ++ [EType q; EPressEnter])
                  | Some w4 =>
                      match page_waitForNavigation w4 with
                      | None => (Throw (NavigationError ""), w4, resolverSteps q)
                      | Some w5 =>
                          match page_evaluate w5 with
                          | None => (Throw (CallRejected "page.evaluate"), w5,
                                     resolverSteps q)
                          | Some doc =>
                              (Ok (Resolver.extractZillowUrl doc), w5,
                               resolverSteps q)
                          end
                      end
                  end
              end
          end
      end
  end.
Proof.
  unfold getZillowURL, Async.bind, Async.emit, goto, delay, Async.call,
    Async.callOr, pageQuery, evaluate, Async.readOr, Async.throw, Async.ret.
  destruct (page_goto _ w) as [w1|]; [|reflexivity].
  destruct (page_waitForSelector _ _) as [w2|]; [|reflexivity].
  destruct (page_query textareaSelector w2) as [[|]|]; [| |reflexivity].
  - cbn [negb]. destruct (searchBox_type q w2) as [w3|]; [|reflexivity].
    destruct (keyboard_press_Enter w3) as [w4|]; [|reflexivity].
    destruct (page_waitForNavigation w4) as [w5|]; [|reflexivity].
    destruct (page_evaluate w5); reflexivity.
  - destruct (page_query inputSelector w2) as [[|]|]; [|reflexivity|reflexivity].
    cbn [negb]. destruct (searchBox_type q w2) as [w3|]; [|reflexivity].
    destruct (keyboard_press_Enter w3) as [w4|]; [|reflexivity].
    destruct (page_waitForNavigation w4) as [w5|]; [|reflexivity].
    destruct (page_evaluate w5); reflexivity.
Qed.

End ResolverSteps.

(** Every branch of [getZillowURL_run]. *)
Ltac resolver_cases q w :=
  rewrite (getZillowURL_run q w);
  destruct (page_goto "https://www.bing.com/" w) as [?w|] eqn:?;
  [destruct (page_waitForSelector searchBoxSelector _) as [?w|] eqn:?;
   [match goal with
    | |- context [page_query textareaSelector ?w2] =>
        destruct (match page_query textareaSelector w2 with
                  | Some true => Some true
                  | Some false => page_query inputSelector w2
                  | None => None
                  end) as [[|]|] eqn:?;
        [destruct (searchBox_type q w2) as [?w|] eqn:?;
         [match goal with
          | |- context [keyboard_press_Enter ?w3] =>
              destruct (keyboard_press_Enter w3) as [?w|] eqn:?;
              [match goal with
               | |- context [page_waitForNavigation ?w4] =>
                   destruct (page_waitForNavigation w4) as [?w|] eqn:?;
                   [match goal with
                    | |- context [page_evaluate ?w5] =>
                        destruct (page_evaluate w5) as [?doc|] eqn:?
                    end|]
               end|]
          end|]| |]
    end|]|].

Section Pagination.
Context {W : Type} {browser : Browser W} {url_api : UrlApi}.
Import Trace.

(** One turn of the loop of zillow.service.ts. *)
Lemma Controller_whileLoop_step fuel baseUrl pageCounter allListings (w : W) :
  Controller.whileLoop (S fuel) baseUrl pageCounter allListings w =
  if (pageCounter <=? maxPages)%nat then
    match pageTurn Extractor.extract3 w with
    | inr (e, w1) => (stopped e, w1, [EPage pageCounter; EAutoScroll])
    | inl (listings, w1) =>
        let url := nextPageUrl baseUrl (pageCounter + 1) in
        match page_goto url w1 with
        | None => (Throw (NavigationError url), w1,
                   [EPage pageCounter; EAutoScroll; EExtracted listings; EGoto url])
        | Some w2 =>
            match Controller.whileLoop fuel baseUrl (pageCounter + 1)
                                       (allListings ++ listings) w2 with
            | (o, w3, evs) =>
                (o, w3, [EPage pageCounter; EAutoScroll; EExtracted listings;
                         EGoto url] ++ evs)
            end
        end
    end
  else (Ok allListings, w, []).
Proof.
  simpl. destruct (pageCounter <=? maxPages)%nat; [|reflexivity].
  unfold Async.bind, Async.emit, autoScroll, evaluateListings, goto, Async.callOr,
    pageTurn, stopped.
  destruct (page_autoScroll w) as [w1| |]; [|reflexivity|reflexivity].
  destruct (page_evaluate w1) as [doc|]; [|reflexivity].
  destruct (Extractor.extract3 doc) as [listings|m]; [|reflexivity].
  destruct (page_goto _ w1) as [w2|]; [|reflexivity].
  destruct (Controller.whileLoop fuel _ _ _ w2) as [[o w3] evs].
  reflexivity.
Qed.

(** One turn of the loop of scrape.ts. *)
Lemma ScrapeTs_whileLoop_step fuel baseUrl pageCounter allListings (w : W) :
  ScrapeTs.whileLoop (S fuel) baseUrl pageCounter allListings w =
  if (pageCounter <=? maxPages)%nat then
    match pageTurn Extractor.extract3 w with
    | inr (e, w1) => (stopped e, w1, [EPage pageCounter; EAutoScroll])
    | inl (listings, w1) =>
        let url := nextPageUrl baseUrl (pageCounter + 1) in
        if (length listings =? 0)%nat then
          (Ok allListings, w1, [EPage pageCounter; EAutoScroll; EExtracted listings])
        else
          match page_goto url w1 with
          | None => (Throw (NavigationError url), w1,
                     [EPage pageCounter; EAutoScroll; EExtracted listings; EGoto url])
          | Some w2 =>
              match ScrapeTs.whileLoop fuel baseUrl (pageCounter + 1)
                                       (allListings ++ listings) w2 with
              | (o, w3, evs) =>
                  (o, w3, [EPage pageCounter; EAutoScroll; EExtracted listings;
                           EGoto url] ++ evs)
              end
          end
    end
  else (Ok allListings, w, []).
Proof.
  simpl. destruct (pageCounter <=? maxPages)%nat; [|reflexivity].
  unfold Async.bind, Async.emit, autoScroll, evaluateListings, goto, Async.callOr,
    pageTurn, stopped.
  destruct (page_autoScroll w) as [w1| |]; [|reflexivity|reflexivity].
  destruct (page_evaluate w1) as [doc|]; [|reflexivity].
  destruct (Extractor.extract3 doc) as [listings|m]; [|reflexivity].
  destruct (length _ =? 0)%nat; [reflexivity|].
  assert (E : (if (pageCounter + 1 =? 2)%nat
               then nextPageUrl baseUrl (pageCounter + 1)
               else nextPageUrl baseUrl (pageCounter + 1))
              = nextPageUrl baseUrl (pageCounter + 1))
    by (destruct (pageCounter + 1 =? 2)%nat; reflexivity).
  rewrite E.
  destruct (page_goto _ w1) as [w2|]; [|reflexivity].
  destruct (ScrapeTs.whileLoop fuel _ _ _ w2) as [[o w3] evs].
  reflexivity.
Qed.

(** The pages the loop can still move to from [pageCounter]. *)
Lemma pages_left (pageCounter : nat) :
  pageCounter <= maxPages ->
  S maxPages - pageCounter = S (S maxPages - S pageCounter).
Proof. lia. Qed.

Ltac trace_simpl :=
  cbn [Async.events Async.outcome Async.final fst snd app length concat Nat.eqb
       Trace.gotoUrls Trace.cursors Trace.extractions] in *.

Ltac loop_first_turn pc H :=
  rewrite ?Nat.add_1_r in *; rewrite (pages_left pc) by exact H; cbn [seq map].

(** Invariant of the loop of zillow.service.ts, from any cursor value. *)
Lemma Controller_whileLoop_inv fuel baseUrl pageCounter allListings (w : W) :
  let r := Controller.whileLoop fuel baseUrl pageCounter allListings w in
  Prefix (gotoUrls (Async.events r))
         (map (nextPageUrl baseUrl) (seq (pageCounter + 1) (S maxPages - pageCounter)))
  /\ Prefix (cursors (Async.events r)) (seq pageCounter (S maxPages - pageCounter))
  /\ length (extractions (Async.events r)) <= S maxPages - pageCounter
  /\ (forall l, Async.outcome r = Ok l ->
                l = allListings ++ concat (extractions (Async.events r)))
  /\ (S maxPages - pageCounter < fuel -> Async.outcome r <> OutOfFuel).
Proof.
  revert pageCounter allListings w.
  induction fuel as [|fuel IH]; intros pc all w r.
  - subst r. cbn [Controller.whileLoop ScrapeTs.whileLoop]. unfold Async.outOfFuel.
    trace_simpl. repeat split; auto with trace; try lia. discriminate.
  - subst r. rewrite Controller_whileLoop_step.
    destruct (Nat.leb_spec pc maxPages) as [Hle|Hgt].
    2:{ trace_simpl. repeat split; auto with trace; try lia; try discriminate.
        intros l [= <-]. now rewrite app_nil_r. }
    destruct (pageTurn Extractor.extract3 w) as [[listings w1]|[e w1]].
    2:{ destruct e; trace_simpl; repeat split; auto with trace; try lia;
          try discriminate; loop_first_turn pc Hle; auto with trace. }
    cbv zeta. destruct (page_goto _ w1) as [w2|].
    2:{ trace_simpl. loop_first_turn pc Hle.
        repeat split; auto with trace; try lia; try discriminate. }
    specialize (IH (pc + 1) (all ++ listings) w2).
    destruct (Controller.whileLoop fuel baseUrl (pc + 1) _ w2) as [[o w3] evs].
    cbv zeta in IH. trace_simpl.
    destruct IH as (Hg & Hc & He & Ho & Hf).
    loop_first_turn pc Hle.
    repeat split; auto with trace; try lia.
    + intros l Hl. rewrite (Ho l Hl). now rewrite <- app_assoc.
    + intros Hlt. apply Hf. lia.
Qed.

(** Invariant of the loop of scrape.ts. *)
Lemma ScrapeTs_whileLoop_inv fuel baseUrl pageCounter allListings (w : W) :
  let r := ScrapeTs.whileLoop fuel baseUrl pageCounter allListings w in
  Prefix (gotoUrls (Async.events r))
         (map (nextPageUrl baseUrl) (seq (pageCounter + 1) (S maxPages - pageCounter)))
  /\ Prefix (cursors (Async.events r)) (seq pageCounter (S maxPages - pageCounter))
  /\ length (extractions (Async.events r)) <= S maxPages - pageCounter
  /\ (forall l, Async.outcome r = Ok l ->
                l = allListings ++ concat (extractions (Async.events r)))
  /\ (S maxPages - pageCounter < fuel -> Async.outcome r <> OutOfFuel).
Proof.
  revert pageCounter allListings w.
  induction fuel as [|fuel IH]; intros pc all w r.
  - subst r. cbn [Controller.whileLoop ScrapeTs.whileLoop]. unfold Async.outOfFuel.
    trace_simpl. repeat split; auto with trace; try lia. discriminate.
  - subst r. rewrite ScrapeTs_whileLoop_step.
    destruct (Nat.leb_spec pc maxPages) as [Hle|Hgt].
    2:{ trace_simpl. repeat split; auto with trace; try lia; try discriminate.
        intros l [= <-]. now rewrite app_nil_r. }
    destruct (pageTurn Extractor.extract3 w) as [[listings w1]|[e w1]].
    2:{ destruct e; trace_simpl; repeat split; auto with trace; try lia;
          try discriminate; loop_first_turn pc Hle; auto with trace. }
    cbv zeta.
    destruct listings as [|x listings].
    { trace_simpl. loop_first_turn pc Hle.
      repeat split; auto with trace; try lia; try discriminate.
      intros l [= <-]. now rewrite app_nil_r. }
    cbn [length Nat.eqb].
    destruct (page_goto _ w1) as [w2|].
    2:{ trace_simpl. loop_first_turn pc Hle.
        repeat split; auto with trace; try lia; try discriminate. }
    specialize (IH (pc + 1) (all ++ x :: listings) w2).
    destruct (ScrapeTs.whileLoop fuel baseUrl (pc + 1) _ w2) as [[o w3] evs].
    cbv zeta in IH. trace_simpl.
    destruct IH as (Hg & Hc & He & Ho & Hf).
    loop_first_turn pc Hle.
    repeat split; auto with trace; try lia.
    + intros l Hl. rewrite (Ho l Hl). now rewrite <- app_assoc.
    + intros Hlt. apply Hf. lia.
Qed.

Lemma Controller_whileLoop_plain fuel baseUrl pageCounter allListings (w : W) :
  plain (Async.events (Controller.whileLoop fuel baseUrl pageCounter allListings w)).
Proof.
  unfold plain. revert pageCounter allListings w.
  induction fuel as [|fuel IH]; intros pc all w; [reflexivity|].
  rewrite Controller_whileLoop_step.
  destruct (pc <=? maxPages)%nat; [|reflexivity].
  destruct (pageTurn Extractor.extract3 w) as [[listings w1]|[e w1]];
    [|try destruct e; reflexivity].
  cbv zeta. destruct (page_goto _ w1) as [w2|]; [|reflexivity].
  specialize (IH (pc + 1) (all ++ listings) w2).
  destruct (Controller.whileLoop fuel baseUrl (pc + 1) _ w2) as [[o w3] evs].
  exact IH.
Qed.

Lemma ScrapeTs_whileLoop_plain fuel baseUrl pageCounter allListings (w : W) :
  plain (Async.events (ScrapeTs.whileLoop fuel baseUrl pageCounter allListings w)).
Proof.
  unfold plain. revert pageCounter allListings w.
  induction fuel as [|fuel IH]; intros pc all w; [reflexivity|].
  rewrite ScrapeTs_whileLoop_step.
  destruct (pc <=? maxPages)%nat; [|reflexivity].
  destruct (pageTurn Extractor.extract3 w) as [[listings w1]|[e w1]];
    [|try destruct e; reflexivity].
  cbv zeta. destruct (length _ =? 0)%nat; [reflexivity|].
  destruct (page_goto _ w1) as [w2|]; [|reflexivity].
  specialize (IH (pc + 1) (all ++ listings) w2).
  destruct (ScrapeTs.whileLoop fuel baseUrl (pc + 1) _ w2) as [[o w3] evs].
  exact IH.
Qed.

(** The single-page variant has one turn. *)
Lemma SinglePage_scrape_step (w : W) :
  SinglePage.scrapeZillowListings w =
  match pageTurn Extractor.extract5 w with
  | inr (e, w1) => (stopped e, w1, [EAutoScroll])
  | inl (listings, w1) => (Ok listings, w1, [EAutoScroll; EExtracted listings])
  end.
Proof.
  unfold SinglePage.scrapeZillowListings, Async.bind, autoScroll, evaluateListings,
    pageTurn, stopped.
  destruct (page_autoScroll w) as [w1| |]; [|reflexivity|reflexivity].
  destruct (page_evaluate w1) as [doc|]; [|reflexivity].
  destruct (Extractor.extract5 doc); reflexivity.
Qed.

Lemma SinglePage_scrape_plain (w : W) :
  plain (Async.events (SinglePage.scrapeZillowListings w)).
Proof.
  unfold plain. rewrite SinglePage_scrape_step.
  destruct (pageTurn Extractor.extract5 w) as [[l w1]|[e w1]]; reflexivity.
Qed.

Lemma getZillowURL_plain (q : string) (w : W) :
  plain (Async.events (getZillowURL q w)).
Proof. unfold plain. resolver_cases q w; reflexivity. Qed.

(** The resolver returns its value or rejects; it never stays pending and
    needs no fuel. *)
Lemma getZillowURL_settles (q : string) (w : W) :
  (exists z doc, Async.outcome (getZillowURL q w) = Ok z
                 /\ page_evaluate (Async.final (getZillowURL q w)) = Some doc
                 /\ z = Resolver.extractZillowUrl doc)
  \/ exists e, Async.outcome (getZillowURL q w) = Throw e.
Proof.
  resolver_cases q w; try (right; eexists; reflexivity).
  left. exists (Resolver.extractZillowUrl doc), doc.
  cbn [Async.outcome Async.final fst snd]. now repeat split.
Qed.

(** A run that did not exhaust its fuel is the same with more fuel. *)
Lemma Controller_whileLoop_fuel fuel fuel' baseUrl pageCounter allListings (w : W) :
  fuel <= fuel' ->
  Async.ranOut (Async.outcome
                  (Controller.whileLoop fuel baseUrl pageCounter allListings w)) = false ->
  Controller.whileLoop fuel' baseUrl pageCounter allListings w
  = Controller.whileLoop fuel baseUrl pageCounter allListings w.
Proof.
  revert fuel' pageCounter allListings w.
  induction fuel as [|fuel IH]; intros fuel' pc all w Hle Hran; [discriminate|].
  destruct fuel' as [|fuel']; [lia|].
  rewrite !Controller_whileLoop_step in *.
  destruct (pc <=? maxPages)%nat; [|reflexivity].
  destruct (pageTurn Extractor.extract3 w) as [[listings w1]|[e w1]];
    [|try destruct e; reflexivity].
  cbv zeta in *. destruct (page_goto _ w1) as [w2|]; [|reflexivity].
  specialize (IH fuel' (pc + 1) (all ++ listings) w2).
  destruct (Controller.whileLoop fuel baseUrl (pc + 1) _ w2) as [[o w3] evs].
  rewrite IH; [reflexivity | lia | exact Hran].
Qed.

Lemma ScrapeTs_whileLoop_fuel fuel fuel' baseUrl pageCounter allListings (w : W) :
  fuel <= fuel' ->
  Async.ranOut (Async.outcome
                  (ScrapeTs.whileLoop fuel baseUrl pageCounter allListings w)) = false ->
  ScrapeTs.whileLoop fuel' baseUrl pageCounter allListings w
  = ScrapeTs.whileLoop fuel baseUrl pageCounter allListings w.
Proof.
  revert fuel' pageCounter allListings w.
  induction fuel as [|fuel IH]; intros fuel' pc all w Hle Hran; [discriminate|].
  destruct fuel' as [|fuel']; [lia|].
  rewrite !ScrapeTs_whileLoop_step in *.
  destruct (pc <=? maxPages)%nat; [|reflexivity].
  destruct (pageTurn Extractor.extract3 w) as [[listings w1]|[e w1]];
    [|try destruct e; reflexivity].
  cbv zeta in *. destruct (length _ =? 0)%nat; [reflexivity|].
  destruct (page_goto _ w1) as [w2|]; [|reflexivity].
  specialize (IH fuel' (pc + 1) (all ++ listings) w2).
  destruct (ScrapeTs.whileLoop fuel baseUrl (pc + 1) _ w2) as [[o w3] evs].
  rewrite IH; [reflexivity | lia | exact Hran].
Qed.

Lemma split_after_prefix {A} (x : A) (l1 l2 before after : list A) :
  l1 ++ l2 = before ++ x :: after -> ~ In x l1 ->
  exists before', before = l1 ++ before' /\ l2 = before' ++ x :: after.
Proof.
  revert before; induction l1 as [|a l1 IH]; intros before H Hn.
  - exists before. now split.
  - destruct before as [|b before]; simpl in H; injection H as -> H.
    + exfalso. apply Hn. now left.
    + destruct (IH before H) as (b' & -> & ->); [intros Hin; apply Hn; now right|].
      now exists b'.
Qed.

(** The loop of scrape.ts from any cursor value: an empty extraction is the
    last event, and the result is what was aggregated before it. *)
Lemma ScrapeTs_whileLoop_empty fuel baseUrl pageCounter allListings (w : W)
      (before after : list Event) :
  Async.events (ScrapeTs.whileLoop fuel baseUrl pageCounter allListings w)
  = before ++ EExtracted [] :: after ->
  after = []
  /\ Async.outcome (ScrapeTs.whileLoop fuel baseUrl pageCounter allListings w)
     = Ok (allListings ++ concat (extractions before)).
Proof.
  revert pageCounter allListings w before.
  induction fuel as [|fuel IH]; intros pc all w before H.
  - destruct before; discriminate.
  - rewrite ScrapeTs_whileLoop_step in *.
    destruct (pc <=? maxPages)%nat; [|destruct before; discriminate].
    destruct (pageTurn Extractor.extract3 w) as [[listings w1]|[e w1]].
    2:{ destruct before as [|a [|b [|c before]]]; discriminate. }
    cbv zeta in *.
    destruct listings as [|x listings].
    { trace_simpl.
      destruct before as [|a [|b [|c before]]]; try discriminate;
        injection H as Ha Hb Hc; subst.
      - split; [reflexivity|]. trace_simpl. now rewrite app_nil_r.
      - destruct before; discriminate. }
    cbn [length Nat.eqb] in *.
    destruct (page_goto _ w1) as [w2|].
    2:{ trace_simpl.
        destruct before as [|a [|b [|c [|d before]]]]; try discriminate.
        injection H as _ _ _ _ H. destruct before; discriminate. }
    specialize (IH (pc + 1) (all ++ x :: listings) w2).
    destruct (ScrapeTs.whileLoop fuel baseUrl (pc + 1) _ w2) as [[o w3] evs].
    unfold Async.events, Async.outcome in *. cbn [fst snd] in *.
    apply split_after_prefix in H.
    2:{ cbn [In]. intros [E|[E|[E|[E|[]]]]]; discriminate. }
    destruct H as (b' & -> & Hevs).
    destruct (IH b' Hevs) as [-> ->].
    split; [reflexivity|]. trace_simpl. now rewrite <- app_assoc.
Qed.

(** C2. In both paginated variants one run of the pagination issues at most
    4 ([maxPages]) navigation requests, enters the loop body for cursor
    values that form an initial segment of 1, 2, 3, 4 and extracts from at
    most 4 pages, whatever the browser and the extractor return; the loop
    always comes to an end. *)
Theorem pagination_at_most_maxPages (baseUrl : string) (w : W) :
  let rc := Controller.scrapeZillowListings baseUrl w in
  let rs := ScrapeTs.scrapeZillowListings baseUrl w in
  (length (gotoUrls (Async.events rc)) <= 4
   /\ Prefix (cursors (Async.events rc)) [1; 2; 3; 4]
   /\ length (extractions (Async.events rc)) <= 4
   /\ Async.ranOut (Async.outcome rc) = false)
  /\ (length (gotoUrls (Async.events rs)) <= 4
      /\ Prefix (cursors (Async.events rs)) [1; 2; 3; 4]
      /\ length (extractions (Async.events rs)) <= 4
      /\ Async.ranOut (Async.outcome rs) = false).
Proof.
  intros rc rs. split.
  - destruct (Controller_whileLoop_inv (S maxPages) baseUrl 1 [] w)
      as (Hg & Hc & He & _ & Hf).
    fold (Controller.scrapeZillowListings baseUrl w) in *. fold rc in Hg, Hc, He, Hf.
    apply Prefix_length in Hg. rewrite length_map, length_seq in Hg.
    repeat split; auto.
    destruct (Async.outcome rc); try reflexivity.
    exfalso. apply Hf; [unfold maxPages; lia | reflexivity].
  - destruct (ScrapeTs_whileLoop_inv (S maxPages) baseUrl 1 [] w)
      as (Hg & Hc & He & _ & Hf).
    fold (ScrapeTs.scrapeZillowListings baseUrl w) in *. fold rs in Hg, Hc, He, Hf.
    apply Prefix_length in Hg. rewrite length_map, length_seq in Hg.
    repeat split; auto.
    destruct (Async.outcome rs); try reflexivity.
    exfalso. apply Hf; [unfold maxPages; lia | reflexivity].
Qed.

(** C5. In scrape.ts, when the extractor returns an empty sequence on some
    page, that extraction is the last thing the pagination does (so the
    cursor is not advanced and no later page is navigated to) and the
    aggregate returned is the concatenation of the extractions of the pages
    before it, in page order. *)
Theorem empty_page_stops_pagination (baseUrl : string) (w : W)
        (before after : list Event) :
  Async.events (ScrapeTs.scrapeZillowListings baseUrl w)
  = before ++ EExtracted [] :: after ->
  after = []
  /\ gotoUrls (Async.events (ScrapeTs.scrapeZillowListings baseUrl w))
     = gotoUrls before
  /\ Async.outcome (ScrapeTs.scrapeZillowListings baseUrl w)
     = Ok (concat (extractions before)).
Proof.
  intros H.
  destruct (ScrapeTs_whileLoop_empty (S maxPages) baseUrl 1 [] w before after H)
    as [-> Ho].
  split; [reflexivity|]. split; [|exact Ho].
  rewrite H. clear. induction before as [|[] before IH]; cbn [app gotoUrls]; congruence.
Qed.

End Pagination.

(** The scenario of the specification: page 1 has one card, page 2 none. *)
Lemma empty_page_stops_pagination_witness :
  let w := TestWeb.load TestWeb.page1 (TestWeb.world TestWeb.siteOnePage TestWeb.bing) in
  let r := @ScrapeTs.scrapeZillowListings TestWeb.World TestWeb.browser
             TestWeb.url_api TestWeb.target w in
  let record := mkListing (Some "$500,000") (Some "123 Main St, New York, NY")
                  (Some "https://example-target.test/homedetails/1_zpid/")
                  None None in
  Trace.gotoUrls (Async.events r) = ["https://example-target.test/new-york-ny/2_p/"%string]
  /\ Async.outcome r = Ok [record].
Proof.
  intros w r record.
  destruct (@empty_page_stops_pagination TestWeb.World TestWeb.browser
              TestWeb.url_api TestWeb.target w
              [EPage 1; EAutoScroll; EExtracted [record];
               EGoto "https://example-target.test/new-york-ny/2_p/";
               EPage 2; EAutoScroll] [])
    as (_ & Hg & Ho); [reflexivity|].
  split; [exact Hg | exact Ho].
Defined.

(* ================================================================= *)
(** ** The request handlers *)

Section Handlers.
Context {W : Type} {browser : Browser W} {url_api : UrlApi}.
Import Trace.

Ltac run_handler :=
  unfold Async.events, expectedEvents, Async.tryCatch, Async.bind, respond,
    launchBrowser, goto, close, Async.emit, Async.call, Async.callOr, Async.throw,
    failure;
  repeat match goal with
    | |- context [if ?b then _ else _] => destruct b eqn:?
    | |- context [match puppeteer_launch ?w with _ => _ end] =>
        destruct (puppeteer_launch w) eqn:?
    | |- context [match page_goto ?u ?w with _ => _ end] =>
        destruct (page_goto u w) eqn:?
    | |- context [match ?f ?w with (_, _) => _ end] =>
        destruct (f w) as [[[?|?| |] ?] ?] eqn:?
    end;
  cbn [snd fst app]; rewrite ?app_nil_r, <- ?app_assoc;
  first [reflexivity | exfalso; cbn [negb] in *; congruence].

Lemma Controller_events (body : Body) (w : W) :
  Async.events (Controller.scrapeListings body w)
  = expectedEvents [ENewPage; ESetNavTimeout 60000%N] "No Zillow link found."
      (fun u => u) Controller.scrapeZillowListings body w.
Proof. unfold Controller.scrapeListings. run_handler. Qed.

Lemma ScrapeTs_events (body : Body) (w : W) :
  Async.events (ScrapeTs.scrapeHandler body w)
  = expectedEvents [ENewPage; ESetNavTimeout 60000%N; ESetUserAgent userAgent]
      "No Zillow link found in search results."
      ScrapeTs.normalizeBase ScrapeTs.scrapeZillowListings body w.
Proof. unfold ScrapeTs.scrapeHandler. run_handler. Qed.

Lemma SinglePage_events (body : Body) (w : W) :
  Async.events (SinglePage.scrapeHandler body w)
  = expectedEvents [ENewPage; ESetNavTimeout 60000%N; ESetUserAgent userAgent]
      "No Zillow link found in search results."
      (fun u => u) (fun _ => SinglePage.scrapeZillowListings) body w.
Proof. unfold SinglePage.scrapeHandler. run_handler. Qed.

Lemma count_app (p : Event -> bool) (l1 l2 : list Event) :
  count p (l1 ++ l2) = count p l1 + count p l2.
Proof. unfold count. now rewrite filter_app, length_app. Qed.

Lemma responses_app (l1 l2 : list Event) :
  responses (l1 ++ l2) = responses l1 ++ responses l2.
Proof. induction l1 as [|[] l1 IH]; cbn [app responses]; congruence. Qed.

Lemma gotoUrls_app (l1 l2 : list Event) :
  gotoUrls (l1 ++ l2) = gotoUrls l1 ++ gotoUrls l2.
Proof. induction l1 as [|[] l1 IH]; cbn [app gotoUrls]; congruence. Qed.

Lemma plain_no_close (evs : list Event) : plain evs -> count isClose evs = 0.
Proof.
  unfold plain, count. induction evs as [|e evs IH]; [reflexivity|].
  cbn [forallb filter]. intros H. apply andb_prop in H as [He H].
  destruct e; try discriminate; cbn [isClose]; auto.
Qed.

Lemma plain_no_launch (evs : list Event) : plain evs -> count isLaunch evs = 0.
Proof.
  unfold plain, count. induction evs as [|e evs IH]; [reflexivity|].
  cbn [forallb filter]. intros H. apply andb_prop in H as [He H].
  destruct e; try discriminate; cbn [isLaunch]; auto.
Qed.

Lemma plain_no_response (evs : list Event) : plain evs -> responses evs = [].
Proof.
  unfold plain. induction evs as [|e evs IH]; [reflexivity|].
  cbn [forallb]. intros H. apply andb_prop in H as [He H].
  destruct e; try discriminate; cbn [responses]; auto.
Qed.

Lemma afterFound_plain (evs rest : list Event) (url : string) :
  plain evs -> afterFound (evs ++ EFound url :: rest) = rest.
Proof.
  unfold plain. induction evs as [|e evs IH]; [reflexivity|].
  cbn [forallb]. intros H. apply andb_prop in H as [He H].
  destruct e; try discriminate; cbn [app afterFound]; auto.
Qed.

Lemma count_cons (p : Event -> bool) (e : Event) (l : list Event) :
  count p (e :: l) = (if p e then 1 else 0) + count p l.
Proof. unfold count. cbn [filter]. now destruct (p e). Qed.

Lemma count_nil (p : Event -> bool) : count p [] = 0.
Proof. reflexivity. Qed.

(** Closes and answers in a trace of the shared shape. *)
Lemma expected_release setup notFound normalize
      (scrape : string -> @Async.M W (list Listing)) (body : Body) (w : W) :
  plain setup ->
  (forall u w', plain (Async.events (scrape u w'))) ->
  let evs := expectedEvents setup notFound normalize scrape body w in
  count isClose evs
  = length (filter (fun r => (status r =? 200)%nat) (responses evs))
  /\ count isClose (beforeRespond evs) = count isClose evs
  /\ length (responses evs) <= 1
  /\ count isLaunch evs <= 1.
Proof.
  intros Hsetup Hscrape evs. subst evs. unfold expectedEvents, failure.
  destruct (negb _ || negb _); [repeat split; auto|].
  destruct (puppeteer_launch w) as [w0|]; [|repeat split; auto].
  pose proof (getZillowURL_plain
                (JsonValue.toStr (query body) ++ " " ++ JsonValue.toStr (city body)) w0) as H1.
  destruct (getZillowURL _ w0) as [[o1 w1] evs1]. cbn [Async.events snd] in H1.
  assert (Hb : forall tail,
             beforeRespond (ELaunch :: setup ++ evs1 ++ tail)
             = ELaunch :: setup ++ evs1 ++ beforeRespond tail).
  { intros tail. cbn [beforeRespond]. f_equal. clear - Hsetup H1.
    unfold plain in *.
    induction setup as [|e l IH]; cbn [app].
    - induction evs1 as [|e l IH]; cbn [app]; [reflexivity|].
      cbn [forallb] in H1. apply andb_prop in H1 as [He H1].
      destruct e; try discriminate; cbn [beforeRespond]; f_equal; auto.
    - cbn [forallb] in Hsetup. apply andb_prop in Hsetup as [He Hs].
      destruct e; try discriminate; cbn [beforeRespond]; f_equal; auto. }
  assert (Hb2 : forall evs2 tail, plain evs2 ->
             beforeRespond (evs2 ++ tail) = evs2 ++ beforeRespond tail).
  { intros evs2 tail H2. unfold plain in H2.
    induction evs2 as [|e l IH]; cbn [app]; [reflexivity|].
    cbn [forallb] in H2. apply andb_prop in H2 as [He H2].
    destruct e; try discriminate; cbn [beforeRespond]; f_equal; auto. }
  rewrite Hb.
  change (ELaunch :: setup ++ evs1 ++ ?t) with ([ELaunch] ++ setup ++ evs1 ++ t).
  rewrite !count_app, !responses_app.
  rewrite (plain_no_close setup), (plain_no_close evs1),
    (plain_no_launch setup), (plain_no_launch evs1),
    (plain_no_response setup), (plain_no_response evs1) by assumption.
  cbn [app responses].
  rewrite !count_cons, count_nil. cbn [isClose isLaunch].
  destruct o1 as [z|e| |]; try (cbn; repeat split; lia).
  destruct (Js.truthy z); [|cbn; repeat split; lia].
  cbv zeta. cbn [beforeRespond responses].
  rewrite !count_cons. cbn [isClose isLaunch].
  destruct (page_goto _ w1) as [w2|]; [|cbn; repeat split; lia].
  pose proof (Hscrape (normalize (toStr z)) w2) as H2.
  destruct (scrape _ w2) as [[o2 w3] evs2]. cbn [Async.events snd] in H2.
  rewrite Hb2 by assumption.
  rewrite !count_app, !responses_app.
  rewrite (plain_no_close evs2), (plain_no_launch evs2),
    (plain_no_response evs2) by assumption.
  destruct o2; cbn; repeat split; lia.
Qed.

(** In each handler the browser is closed exactly when the handler answers
    with status 200, and then once and before the answer; a run that ends
    in an error answer never closes it. *)
Lemma release_only_on_success (body : Body) (w : W) :
  let released evs :=
    count isClose evs
    = length (filter (fun r => (status r =? 200)%nat) (responses evs))
    /\ count isClose (beforeRespond evs) = count isClose evs
    /\ length (responses evs) <= 1
    /\ count isLaunch evs <= 1 in
  released (Async.events (Controller.scrapeListings body w))
  /\ released (Async.events (ScrapeTs.scrapeHandler body w))
  /\ released (Async.events (SinglePage.scrapeHandler body w)).
Proof.
  cbv zeta. rewrite Controller_events, ScrapeTs_events, SinglePage_events.
  split; [|split]; apply expected_release; try reflexivity; intros u w'.
  - apply Controller_whileLoop_plain.
  - apply ScrapeTs_whileLoop_plain.
  - apply SinglePage_scrape_plain.
Qed.

(** C9. A request whose body lacks [query] or lacks [city] is answered with
    status 400 and the error payload, and that answer is the only thing any
    of the three handlers does: no browser is launched and the resolver is
    not entered. *)
Theorem missing_field_rejected (body : Body) (w : W) :
  query body = None \/ city body = None ->
  let reject :=
    (Ok tt, w, [ERespond (mkResponse 400 (ErrorPayload validationMessage))]) in
  (Controller.scrapeListings body w = reject
   /\ ScrapeTs.scrapeHandler body w = reject
   /\ SinglePage.scrapeHandler body w = reject)
  /\ count isLaunch (Async.events reject) = 0
  /\ count isResolve (Async.events reject) = 0.
Proof.
  intros H reject.
  assert (E : negb (JsonValue.truthy (query body)) || negb (JsonValue.truthy (city body)) = true).
  { destruct H as [-> | ->]; [reflexivity | apply orb_true_r]. }
  unfold Controller.scrapeListings, ScrapeTs.scrapeHandler,
    SinglePage.scrapeHandler, Async.tryCatch.
  rewrite E. repeat split.
Qed.

Lemma normalizeBase_cases (u : string) :
  Js.endsWith (ScrapeTs.normalizeBase u) "/" = true
  /\ (Js.endsWith u "/" = true /\ ScrapeTs.normalizeBase u = u
      \/ Js.endsWith u "/" = false /\ ScrapeTs.normalizeBase u = (u ++ "/")%string).
Proof.
  unfold ScrapeTs.normalizeBase. destruct (Js.endsWith u "/") eqn:E.
  - split; [exact E | left; now split].
  - split; [apply endsWith_spec; now exists u | right; now split].
Qed.

(** The trace of a handler once the resolver has returned a usable URL. *)
Lemma expected_found setup notFound normalize
      (scrape : string -> @Async.M W (list Listing))
      (body : Body) (w w0 w1 : W) (url : string) (evs1 : list Event) :
  JsonValue.truthy (query body) = true -> JsonValue.truthy (city body) = true ->
  puppeteer_launch w = Some w0 ->
  getZillowURL (JsonValue.toStr (query body) ++ " " ++ JsonValue.toStr (city body)) w0
  = (Ok (Some url), w1, evs1) ->
  url <> ""%string ->
  exists rest,
    expectedEvents setup notFound normalize scrape body w
    = ELaunch :: setup ++ evs1 ++ EFound url :: EGoto (normalize url) :: rest
    /\ (rest = [failure (NavigationError (normalize url))]
        \/ exists w2 tail,
             page_goto (normalize url) w1 = Some w2
             /\ rest = Async.events (scrape (normalize url) w2) ++ tail
             /\ gotoUrls tail = []).
Proof.
  intros Hq Hc Hl Hz Hne. unfold expectedEvents.
  rewrite Hq, Hc, Hl, Hz. cbn [negb orb Js.truthy toStr].
  destruct (String.eqb_spec url ""); [contradiction|]. cbn [negb]. cbv zeta.
  eexists. split; [reflexivity|].
  destruct (page_goto (normalize url) w1) as [w2|]; [|now left].
  right. exists w2.
  destruct (scrape (normalize url) w2) as [[o2 w3] evs2].
  eexists. split; [reflexivity|]. split; [reflexivity|].
  destruct o2; reflexivity.
Qed.

(** C3, as the code has it. When the body is valid, the browser starts and
    the resolver returns a non-empty URL, the first event after the
    resolution is the navigation: to exactly that URL in
    scraper.controller.ts and in the single-page variant, and in scrape.ts
    to that URL with a slash appended unless it already ends with one (then
    it is exactly that URL). *)
Theorem first_navigation_after_resolution
        (body : Body) (w w0 w1 : W) (url : string) (evs1 : list Event) :
  JsonValue.truthy (query body) = true -> JsonValue.truthy (city body) = true ->
  puppeteer_launch w = Some w0 ->
  getZillowURL (JsonValue.toStr (query body) ++ " " ++ JsonValue.toStr (city body)) w0
  = (Ok (Some url), w1, evs1) ->
  url <> ""%string ->
  (exists rest,
      Async.events (Controller.scrapeListings body w)
      = ELaunch :: [ENewPage; ESetNavTimeout 60000%N] ++ evs1
          ++ EFound url :: EGoto url :: rest)
  /\ (exists rest,
        Async.events (SinglePage.scrapeHandler body w)
        = ELaunch :: [ENewPage; ESetNavTimeout 60000%N; ESetUserAgent userAgent]
            ++ evs1 ++ EFound url :: EGoto url :: rest)
  /\ (exists rest,
        Async.events (ScrapeTs.scrapeHandler body w)
        = ELaunch :: [ENewPage; ESetNavTimeout 60000%N; ESetUserAgent userAgent]
            ++ evs1 ++ EFound url :: EGoto (ScrapeTs.normalizeBase url) :: rest)
  /\ (Js.endsWith url "/" = true /\ ScrapeTs.normalizeBase url = url
      \/ Js.endsWith url "/" = false
         /\ ScrapeTs.normalizeBase url = (url ++ "/")%string).
Proof.
  intros Hq Hc Hl Hz Hne.
  rewrite Controller_events, SinglePage_events, ScrapeTs_events.
  repeat split.
  - destruct (expected_found [ENewPage; ESetNavTimeout 60000%N]
                "No Zillow link found." (fun u => u)
                Controller.scrapeZillowListings body w w0 w1 url evs1
                Hq Hc Hl Hz Hne) as (rest & E & _).
    now exists rest.
  - destruct (expected_found
                [ENewPage; ESetNavTimeout 60000%N; ESetUserAgent userAgent]
                "No Zillow link found in search results." (fun u => u)
                (fun _ => SinglePage.scrapeZillowListings) body w w0 w1 url evs1
                Hq Hc Hl Hz Hne) as (rest & E & _).
    now exists rest.
  - destruct (expected_found
                [ENewPage; ESetNavTimeout 60000%N; ESetUserAgent userAgent]
                "No Zillow link found in search results." ScrapeTs.normalizeBase
                ScrapeTs.scrapeZillowListings body w w0 w1 url evs1
                Hq Hc Hl Hz Hne) as (rest & E & _).
    now exists rest.
  - apply normalizeBase_cases.
Qed.

(** C4, as the code has it. In scrape.ts the resolved URL is given a
    trailing slash when it does not end with one and is kept as it is
    otherwise, so the base ends with at least one; that base is what the
    handler navigates to and hands to the pagination; and in both paginated
    variants the navigations of the pagination are, in order, to the base it
    was given followed by 2_p/, 3_p/, 4_p/ and 5_p/. *)
Theorem page_urls_from_base
        (body : Body) (w w0 w1 : W) (url : string) (evs1 : list Event) :
  JsonValue.truthy (query body) = true -> JsonValue.truthy (city body) = true ->
  puppeteer_launch w = Some w0 ->
  getZillowURL (JsonValue.toStr (query body) ++ " " ++ JsonValue.toStr (city body)) w0
  = (Ok (Some url), w1, evs1) ->
  url <> ""%string ->
  let base := ScrapeTs.normalizeBase url in
  let pages b := [b ++ "2_p/"; b ++ "3_p/"; b ++ "4_p/"; b ++ "5_p/"]%string in
  (Js.endsWith base "/" = true
   /\ (Js.endsWith url "/" = true /\ base = url
       \/ Js.endsWith url "/" = false /\ base = (url ++ "/")%string))
  /\ Prefix (gotoUrls (afterFound (Async.events (ScrapeTs.scrapeHandler body w))))
            (base :: pages base)
  /\ (forall b w', Prefix (gotoUrls (Async.events (ScrapeTs.scrapeZillowListings b w')))
                          (pages b))
  /\ (forall b w', Prefix (gotoUrls (Async.events (Controller.scrapeZillowListings b w')))
                          (pages b)).
Proof.
  intros Hq Hc Hl Hz Hne base pages.
  assert (Hs : forall b w', Prefix (gotoUrls (Async.events
                              (ScrapeTs.scrapeZillowListings b w'))) (pages b)).
  { intros b w'. exact (proj1 (ScrapeTs_whileLoop_inv (S maxPages) b 1 [] w')). }
  split; [apply normalizeBase_cases|]. split; [|split; [exact Hs|]].
  - rewrite ScrapeTs_events.
    destruct (expected_found
                [ENewPage; ESetNavTimeout 60000%N; ESetUserAgent userAgent]
                "No Zillow link found in search results." ScrapeTs.normalizeBase
                ScrapeTs.scrapeZillowListings body w w0 w1 url evs1
                Hq Hc Hl Hz Hne) as (rest & E & Hrest).
    rewrite E. cbn [app afterFound]. rewrite afterFound_plain.
    2:{ pose proof (getZillowURL_plain
                      (JsonValue.toStr (query body) ++ " " ++ JsonValue.toStr (city body)) w0) as H1.
        now rewrite Hz in H1. }
    cbn [gotoUrls]. apply Prefix_cons.
    destruct Hrest as [-> | (w2 & tail & _ & -> & Ht)]; [apply Prefix_nil|].
    rewrite gotoUrls_app, Ht, app_nil_r. apply Hs.
  - intros b w'. exact (proj1 (Controller_whileLoop_inv (S maxPages) b 1 [] w')).
Qed.

End Handlers.

Lemma missing_field_rejected_witness :
  let w := TestWeb.world TestWeb.siteAll (TestWeb.hits TestWeb.target) in
  let reject :=
    (Ok tt, w, [ERespond (mkResponse 400 (ErrorPayload validationMessage))]) in
  TestWeb.controller (mkBody None (Some (JString "New York"))) w = reject
  /\ TestWeb.scrapeTs (mkBody None (Some (JString "New York"))) w = reject
  /\ TestWeb.singlePage (mkBody None (Some (JString "New York"))) w = reject.
Proof.
  intros w reject.
  apply (@missing_field_rejected TestWeb.World TestWeb.browser TestWeb.url_api
           (mkBody None (Some (JString "New York"))) w).
  left. reflexivity.
Defined.

(* ================================================================= *)
(** ** Runs on the concrete web *)

(** C1 does not hold in the code: the browser is closed on the success path
    only. In every world and in each of the three handlers, the number of
    [browser.close()] calls is the number of answers with status 200, so a
    run that ends in an error answer closes nothing. On the concrete web, a
    run that succeeds launches once and closes once (no browser is left); a
    run in which the resolver finds no link (TargetNotFound), and a run in
    which the navigation to page 3 fails (NavigationError in the middle of
    the pagination), launch once, answer 500 and never close: one browser
    process is left alive. *)
Theorem session_not_released_on_failure :
  (forall (W : Type) (browser : Browser W) (url_api : UrlApi) (body : Body) (w : W),
      let closedWhenOk evs :=
        Trace.count Trace.isClose evs
        = length (filter (fun r => (status r =? 200)%nat) (Trace.responses evs)) in
      closedWhenOk (Async.events (Controller.scrapeListings body w))
      /\ closedWhenOk (Async.events (ScrapeTs.scrapeHandler body w))
      /\ closedWhenOk (Async.events (SinglePage.scrapeHandler body w)))
  /\
  let ok := TestWeb.world TestWeb.siteAll (TestWeb.hits TestWeb.target) in
  let noLink := TestWeb.world TestWeb.siteAll TestWeb.misses in
  let page3Down :=
    TestWeb.world TestWeb.sitePage3Down (TestWeb.hits TestWeb.target) in
  (TestWeb.summary (TestWeb.controller TestWeb.request ok) = (1, 1, [200], 0)
   /\ TestWeb.summary (TestWeb.scrapeTs TestWeb.request ok) = (1, 1, [200], 0)
   /\ TestWeb.summary (TestWeb.singlePage TestWeb.request ok) = (1, 1, [200], 0))
  /\ (TestWeb.summary (TestWeb.controller TestWeb.request noLink) = (1, 0, [500], 1)
      /\ TestWeb.summary (TestWeb.scrapeTs TestWeb.request noLink) = (1, 0, [500], 1)
      /\ TestWeb.summary (TestWeb.singlePage TestWeb.request noLink) = (1, 0, [500], 1))
  /\ (TestWeb.summary (TestWeb.controller TestWeb.request page3Down) = (1, 0, [500], 1)
      /\ TestWeb.summary (TestWeb.scrapeTs TestWeb.request page3Down) = (1, 0, [500], 1)).
Proof.
  split.
  - intros W browser url_api body w closedWhenOk. subst closedWhenOk.
    destruct (release_only_on_success body w) as (Hc & Hs & Hp).
    split; [apply Hc | split; [apply Hs | apply Hp]].
  - vm_compute. repeat split.
Qed.

Lemma first_navigation_after_resolution_witness :
  let w := TestWeb.world TestWeb.siteAll (TestWeb.hits TestWeb.target) in
  exists before rest,
    Async.events (TestWeb.controller TestWeb.request w)
    = before ++ EFound TestWeb.target :: EGoto TestWeb.target :: rest.
Proof.
  intros w.
  destruct (@first_navigation_after_resolution TestWeb.World TestWeb.browser
              TestWeb.url_api TestWeb.request w _ _ TestWeb.target _
              eq_refl eq_refl eq_refl eq_refl)
    as ((rest & E) & _); [discriminate|].
  exists [ELaunch; ENewPage; ESetNavTimeout 60000%N;
          EResolve "top home listings New York"; EGoto "https://www.bing.com/";
          EDelay 3000%N; EWaitForSelector searchBoxSelector;
          EType "top home listings New York"; EPressEnter; EWaitForNavigation],
         rest.
  exact E.
Defined.

(** C3 fails in scrape.ts: the resolver returns a URL without a final slash
    and the first navigation goes to that URL with a slash appended. *)
Lemma first_navigation_differs_in_scrapeTs :
  let u := "https://example-target.test/new-york-ny"%string in
  let w := TestWeb.world TestWeb.siteAll (TestWeb.hits u) in
  (exists w0,
      @puppeteer_launch TestWeb.World TestWeb.browser w = Some w0
      /\ Async.outcome
           (@getZillowURL TestWeb.World TestWeb.browser "top home listings New York" w0)
         = Ok (Some u))
  /\ hd_error (Trace.gotoUrls (Trace.afterFound
                 (Async.events (TestWeb.scrapeTs TestWeb.request w))))
     = Some (u ++ "/")%string
  /\ (u ++ "/")%string <> u.
Proof.
  intros u w. split; [|split].
  - eexists. split; reflexivity.
  - reflexivity.
  - discriminate.
Qed.

Lemma page_urls_from_base_witness :
  let w := TestWeb.world TestWeb.siteAll (TestWeb.hits TestWeb.target) in
  let base := TestWeb.target in
  Prefix (Trace.gotoUrls (Trace.afterFound
            (Async.events (TestWeb.scrapeTs TestWeb.request w))))
         [base; base ++ "2_p/"; base ++ "3_p/"; base ++ "4_p/"; base ++ "5_p/"]%string.
Proof.
  intros w base.
  destruct (@page_urls_from_base TestWeb.World TestWeb.browser
              TestWeb.url_api TestWeb.request w _ _ TestWeb.target _
              eq_refl eq_refl eq_refl eq_refl)
    as (_ & H & _); [discriminate|].
  exact H.
Defined.

(** C4 fails on a resolved URL that ends with two slashes: scrape.ts keeps
    it as it is, so the base does not end with exactly one separator. *)
Lemma base_url_keeps_double_separator :
  let u := "https://example-target.test/new-york-ny//"%string in
  ScrapeTs.normalizeBase u = u
  /\ Js.endsWith (ScrapeTs.normalizeBase u) "//" = true
  /\ endsWithExactlyOne (ScrapeTs.normalizeBase u) "/" = false.
Proof. repeat split. Qed.

(** scraper.controller.ts hands the resolved URL to the pagination as it
    is: without a final slash the page suffix is glued to the last path
    segment. *)
Example controller_page_url_without_separator :
  let u := "https://example-target.test/new-york-ny"%string in
  let w := TestWeb.world TestWeb.siteAll (TestWeb.hits u) in
  firstn 2 (Trace.gotoUrls (Trace.afterFound
              (Async.events (TestWeb.controller TestWeb.request w))))
  = [u; "https://example-target.test/new-york-ny2_p/"%string].
Proof. reflexivity. Qed.

(** The first scenario of the specification: one card on page 1 of the
    single-page variant, beds and baths null. *)
Example single_page_scenario :
  let w := TestWeb.world TestWeb.siteAll (TestWeb.hits TestWeb.target) in
  Trace.responses (Async.events (TestWeb.singlePage TestWeb.request w))
  = [mkResponse 200
       (ResultPayload (Some (JString "top home listings")) (Some (JString "New York"))
          [mkListing (Some "$500,000"%string)
                     (Some "123 Main St, New York, NY"%string)
                     (Some "https://example-target.test/homedetails/1_zpid/"%string)
                     (Some None) (Some None)])].
Proof. reflexivity. Qed.

(* ================================================================= *)
(** ** Scroll Driver *)

Module ScrollFacts.
Import ScrollDriver.
Open Scope Z_scope.

Lemma tick_resolved (scrollHeight : Z) (st : State) :
  resolved (tick scrollHeight st) = true
  <-> scrollHeight <= totalHeight st + distance.
Proof. unfold tick. cbn [resolved]. rewrite Z.geb_leb. apply Z.leb_le. Qed.

(** When and how a run from firing [k] resolves. *)
Lemma run_char (fuel : nat) (heights : nat -> Z) (k : nat) (st : State)
      (k' : nat) (st' : State) :
  run fuel heights k st = Some (k', st')
  <-> (k <= k' < k + fuel)%nat
      /\ (forall j, (k <= j < k')%nat ->
                    totalHeight st + distance * Z.of_nat (S j - k) < heights j)
      /\ heights k' <= totalHeight st + distance * Z.of_nat (S k' - k)
      /\ st' = mkState (totalHeight st + distance * Z.of_nat (S k' - k))
                       (scrolledBy st + distance * Z.of_nat (S k' - k)) true.
Proof.
  revert k st. induction fuel as [|fuel IH]; intros k st; cbn [run].
  - split; [discriminate | intros [H _]; lia].
  - cbv zeta. destruct (resolved (tick (heights k) st)) eqn:E.
    + apply tick_resolved in E. split.
      * intros [= <- <-]. replace (S k - k)%nat with 1%nat by lia.
        rewrite Z.mul_1_r. repeat split; try lia.
        unfold tick. f_equal. rewrite Z.geb_leb. apply Z.leb_le. exact E.
      * intros (Hk & Hbefore & Hat & ->).
        assert (k' = k).
        { destruct (Nat.eq_dec k' k) as [|ne]; [assumption|].
          specialize (Hbefore k ltac:(lia)).
          replace (S k - k)%nat with 1%nat in Hbefore by lia. lia. }
        subst k'. replace (S k - k)%nat with 1%nat by lia.
        rewrite Z.mul_1_r. unfold tick. do 3 f_equal.
        rewrite Z.geb_leb. apply Z.leb_le. exact E.
    + assert (Hlt : totalHeight st + distance < heights k).
      { destruct (Z.le_gt_cases (heights k) (totalHeight st + distance)) as [H|H];
          [apply tick_resolved in H; congruence | lia]. }
      rewrite IH. unfold tick. cbn [totalHeight scrolledBy]. unfold distance in *.
      split.
      * intros (Hk & Hbefore & Hat & ->). split; [lia|]. split; [|split].
        -- intros j Hj. destruct (Nat.eq_dec j k) as [->|ne].
           ++ replace (S k - k)%nat with 1%nat by lia. lia.
           ++ specialize (Hbefore j ltac:(lia)).
              replace (Z.of_nat (S j - k)) with (1 + Z.of_nat (S j - S k)) by lia.
              lia.
        -- replace (Z.of_nat (S k' - k)) with (1 + Z.of_nat (S k' - S k)) by lia.
           lia.
        -- f_equal; lia.
      * intros (Hk & Hbefore & Hat & ->).
        assert (k' <> k).
        { intros ->. replace (S k - k)%nat with 1%nat in Hat by lia. lia. }
        split; [lia|]. split; [|split].
        -- intros j Hj. specialize (Hbefore j ltac:(lia)).
           replace (Z.of_nat (S j - k)) with (1 + Z.of_nat (S j - S k)) in Hbefore by lia.
           lia.
        -- replace (Z.of_nat (S k' - k)) with (1 + Z.of_nat (S k' - S k)) in Hat by lia.
           lia.
        -- f_equal; lia.
Qed.

(** [autoScroll] resolves at firing [k] exactly when [k] is the first firing
    at which the accumulated distance has reached the height read there. *)
Lemma autoScroll_char (heights : nat -> Z) (fuel k : nat) (st : State) :
  autoScroll heights fuel = Some (k, st)
  <-> (1 <= k <= fuel)%nat
      /\ (forall j, (1 <= j < k)%nat -> distance * Z.of_nat j < heights j)
      /\ heights k <= distance * Z.of_nat k
      /\ st = mkState (distance * Z.of_nat k) (distance * Z.of_nat k) true.
Proof.
  unfold autoScroll. rewrite run_char. cbn [initial totalHeight scrolledBy].
  replace (S k - 1)%nat with k by lia. rewrite !Z.add_0_l.
  split; intros (Hk & Hbefore & Hat & Hst); (split; [lia|]); (split; [|now split]);
    intros j Hj; specialize (Hbefore j Hj);
    replace (S j - 1)%nat with j in * by lia; lia.
Qed.

(** A firing at which the distance has caught up makes the run resolve, at
    that firing or before. *)
Lemma run_reaches (fuel : nat) (heights : nat -> Z) (k : nat) (st : State) (K : nat) :
  (k <= K < k + fuel)%nat ->
  heights K <= totalHeight st + distance * Z.of_nat (S K - k) ->
  exists k' st', run fuel heights k st = Some (k', st').
Proof.
  revert k st. induction fuel as [|fuel IH]; intros k st HK Hat; [lia|].
  cbn [run]. cbv zeta. destruct (resolved (tick (heights k) st)) eqn:E.
  - now exists k, (tick (heights k) st).
  - assert (K <> k).
    { intros ->. replace (S k - k)%nat with 1%nat in Hat by lia.
      rewrite Z.mul_1_r in Hat. apply tick_resolved in Hat. congruence. }
    apply IH; [lia|]. unfold tick. cbn [totalHeight]. unfold distance in *.
    replace (Z.of_nat (S K - k)) with (1 + Z.of_nat (S K - S k)) in Hat by lia.
    lia.
Qed.

(** C8, as the code has it. Every firing adds 100 to the accumulated
    distance and to the distance requested from the window; the promise
    resolves at firing [k] (after [k] intervals of 300 ms) exactly when [k]
    is the first firing at which 100 * k has reached the height read at that
    firing. Nothing else stops the loop: the call never completes exactly
    when the height read at every firing is still above the accumulated
    distance; this needs heights that grow without bound (but not every
    such sequence keeps the loop running), and for every height sequence
    that is eventually constant the call completes. *)
Theorem autoScroll_convergence (heights : nat -> Z) :
  (forall fuel k st,
      autoScroll heights fuel = Some (k, st)
      <-> (1 <= k <= fuel)%nat
          /\ (forall j, (1 <= j < k)%nat -> 100 * Z.of_nat j < heights j)
          /\ heights k <= 100 * Z.of_nat k
          /\ st = mkState (100 * Z.of_nat k) (100 * Z.of_nat k) true)
  /\ (neverCompletes heights
      <-> forall k, (1 <= k)%nat -> 100 * Z.of_nat k < heights k)
  /\ (neverCompletes heights -> growsWithoutBound heights)
  /\ (eventuallyConstant heights -> completes heights).
Proof.
  assert (Hchar := autoScroll_char heights). unfold distance in Hchar.
  assert (Hnever : neverCompletes heights
                   <-> forall k, (1 <= k)%nat -> 100 * Z.of_nat k < heights k).
  { split.
    - intros Hn k. induction k as [k IHk] using (well_founded_induction lt_wf).
      intros Hk. destruct (Z.le_gt_cases (heights k) (100 * Z.of_nat k)) as [Hle|]; [|lia].
      exfalso. specialize (Hn k).
      assert (autoScroll heights k
              = Some (k, mkState (100 * Z.of_nat k) (100 * Z.of_nat k) true)) as E.
      { apply Hchar. repeat split; try lia. intros j Hj. apply IHk; lia. }
      congruence.
    - intros Hall fuel. destruct (autoScroll heights fuel) as [[k st]|] eqn:E;
        [|reflexivity].
      apply Hchar in E as (Hk & _ & Hat & _). specialize (Hall k ltac:(lia)). lia. }
  split; [exact Hchar|]. split; [exact Hnever|]. split.
  - intros Hn bound. pose proof (proj1 Hnever Hn) as Hall.
    exists (S (Z.to_nat bound)). specialize (Hall (S (Z.to_nat bound)) ltac:(lia)). lia.
  - intros (k0 & c & Hc).
    pose (K := S (Nat.max k0 (Z.to_nat c))).
    destruct (run_reaches K heights 1 initial K) as (k' & st' & E).
    + lia.
    + rewrite (Hc K) by lia. cbn [initial totalHeight]. unfold distance. lia.
    + now exists K, k', st'.
Qed.

End ScrollFacts.

(** A page whose height stays at 250: the promise resolves (at the third
    firing). *)
Lemma autoScroll_convergence_witness :
  ScrollDriver.completes (fun _ => 250%Z)
  /\ ScrollDriver.autoScroll (fun _ => 250%Z) 3
     = Some (3, ScrollDriver.mkState 300 300 true).
Proof.
  destruct (ScrollFacts.autoScroll_convergence (fun _ => 250%Z))
    as (Hchar & _ & _ & Hconst).
  split.
  - apply Hconst. exists 0, 250%Z. intros k _. reflexivity.
  - apply Hchar. repeat split; lia.
Defined.

(** C8 fails for a page that grows for ever, by 50 at every firing from
    1000: the heights grow without bound and the promise resolves at the
    twentieth firing. *)
Lemma autoScroll_completes_on_unbounded_heights :
  let heights := fun k : nat => (1000 + 50 * Z.of_nat k)%Z in
  ScrollDriver.growsWithoutBound heights
  /\ ScrollDriver.autoScroll heights 20
     = Some (20, ScrollDriver.mkState 2000 2000 true)
  /\ ~ ScrollDriver.neverCompletes heights.
Proof.
  intros heights.
  assert (E : ScrollDriver.autoScroll heights 20
              = Some (20, ScrollDriver.mkState 2000 2000 true)) by reflexivity.
  split; [|split; [exact E|]].
  - intros bound. exists (Z.to_nat bound). unfold heights. lia.
  - intros H. specialize (H 20). congruence.
Qed.

(* ================================================================= *)
(** * Further properties of the code *)

(** ** [getZillowURL] *)

Section ResolverRuns.
Context {W : Type} {browser : Browser W}.
Import Trace.

Lemma getZillowURL_gotos (q : string) (w : W) :
  gotoUrls (Async.events (getZillowURL q w)) = ["https://www.bing.com/"%string].
Proof. resolver_cases q w; reflexivity. Qed.


Lemma getZillowURL_quiet (q : string) (w : W) :
  extractions (Async.events (getZillowURL q w)) = []
  /\ Async.ranOut (Async.outcome (getZillowURL q w)) = false
  /\ Async.outcome (getZillowURL q w) <> Pending
  /\ exists rest, Async.events (getZillowURL q w) = EResolve q :: rest
                  /\ count isResolve rest = 0.
Proof.
  resolver_cases q w;
    repeat split; try discriminate; eexists; split; reflexivity.
Qed.

(** X1. Whatever the page does, [getZillowURL] calls [page.goto] exactly
    once, on the Bing home page; it types nothing but the query it was
    given, at most once, and it types only in runs that end with the
    result, with the failure of the navigation that follows the Enter key,
    or with the rejection of a call made from the typing on (the typing
    itself, the Enter key, the final evaluation): when the navigation to
    Bing fails, the wait for the search box times out, the look-up of the
    box rejects or no box is found, nothing has been typed. *)
Theorem resolver_goes_to_bing_only (q : string) (w : W) :
  let r := getZillowURL q w in
  gotoUrls (Async.events r) = ["https://www.bing.com/"%string]
  /\ (typed (Async.events r) = [] \/ typed (Async.events r) = [q])
  /\ match Async.outcome r with
     | Ok _ | Throw (NavigationError ""%string) => typed (Async.events r) = [q]
     | Throw (CallRejected call) =>
         (call = "page.$"%string /\ typed (Async.events r) = [])
         \/ (call <> "page.$"%string /\ typed (Async.events r) = [q])
     | _ => typed (Async.events r) = []
     end.
Proof.
  intros r. subst r.
  resolver_cases q w; cbn [Async.events Async.outcome fst snd];
    (split; [reflexivity|]);
    (split; [first [now left | now right]|]);
    first [reflexivity | left; now split | right; now split].
Qed.

(** X2. A run of [getZillowURL] ends in one of these ways, and the trace
    tells which. When it resolves, it has gone through all its steps in
    order (Bing, the 3000 ms delay, the wait for the selector
    [textarea[name=q], input[name=q]] with the name quoted, typing, Enter,
    the wait for the navigation) and its value is the href of the first
    matching result heading of the page that the final evaluation read.
    When it rejects, the error is the failed navigation to Bing (nothing
    after the navigation is in the trace), the time-out of the wait for the
    search box, the missing search box or the rejected look-up of it (the
    trace stops after the wait in all three), the rejected typing, the
    rejected Enter key, the failed navigation after Enter or the rejected
    final evaluation (the trace stops at that call). It ends with no
    other error. *)
Theorem resolver_outcomes (q : string) (w : W) :
  let r := getZillowURL q w in
  match Async.outcome r with
  | Ok z =>
      (exists doc, page_evaluate (Async.final r) = Some doc
                   /\ z = Resolver.extractZillowUrl doc)
      /\ Async.events r = resolverSteps q
  | Throw (NavigationError url) =>
      (url = "https://www.bing.com/"%string
       /\ Async.events r = [EResolve q; EGoto "https://www.bing.com/"])
      \/ (url = ""%string /\ Async.events r = resolverSteps q)
  | Throw (TimeoutError selector) =>
      selector = searchBoxSelector /\ Async.events r = resolverPrologue q
  | Throw (JsError message) =>
      message = "Search box not found."%string
      /\ Async.events r = resolverPrologue q
  | Throw (CallRejected call) =>
      (call = "page.$"%string /\ Async.events r = resolverPrologue q)
      \/ (call = "searchBox.type"%string
          /\ Async.events r = resolverPrologue q ++ [EType q])
      \/ (call = "keyboard.press"%string
          /\ Async.events r = resolverPrologue q ++ [EType q; EPressEnter])
      \/ (call = "page.evaluate"%string /\ Async.events r = resolverSteps q)
  | Throw LaunchError | Throw (EvaluationFailed _) | Pending | OutOfFuel => False
  end
  /\ resolverPrologue q
     = [EResolve q; EGoto "https://www.bing.com/"; EDelay 3000%N;
        EWaitForSelector
          ("textarea[name=" ++ dquote ++ "q" ++ dquote ++ "], input[name="
             ++ dquote ++ "q" ++ dquote ++ "]")]
  /\ resolverSteps q = resolverPrologue q ++ [EType q; EPressEnter; EWaitForNavigation].
Proof.
  intros r. subst r. split; [|split; reflexivity].
  resolver_cases q w; cbn [Async.events Async.outcome Async.final fst snd].
  - split; [now exists doc | reflexivity].
  - do 3 right. now split.
  - right. now split.
  - right. right. left. now split.
  - right. left. now split.
  - now split.
  - left. now split.
  - now split.
  - left. now split.
Qed.

End ResolverRuns.

(* ----------------------------------------------------------------- *)
(** ** The handlers: outcomes *)

Section HandlerOutcomes.
Context {W : Type} {browser : Browser W} {url_api : UrlApi}.
Import Trace.

Ltac run_outcome :=
  unfold Async.outcome, expectedOutcome, Async.tryCatch, Async.bind, respond,
    launchBrowser, goto, close, Async.emit, Async.call, Async.callOr, Async.throw;
  repeat match goal with
    | |- context [if ?b then _ else _] => destruct b eqn:?
    | |- context [match puppeteer_launch ?w with _ => _ end] =>
        destruct (puppeteer_launch w) eqn:?
    | |- context [match page_goto ?u ?w with _ => _ end] =>
        destruct (page_goto u w) eqn:?
    | |- context [match ?f ?w with (_, _) => _ end] =>
        destruct (f w) as [[[?|?| |] ?] ?] eqn:?
    end;
  cbn [snd fst];
  first [reflexivity | exfalso; cbn [negb] in *; congruence].

Lemma Controller_outcome (body : Body) (w : W) :
  Async.outcome (Controller.scrapeListings body w)
  = expectedOutcome (fun u => u) Controller.scrapeZillowListings body w.
Proof. unfold Controller.scrapeListings. run_outcome. Qed.

Lemma ScrapeTs_outcome (body : Body) (w : W) :
  Async.outcome (ScrapeTs.scrapeHandler body w)
  = expectedOutcome ScrapeTs.normalizeBase ScrapeTs.scrapeZillowListings body w.
Proof. unfold ScrapeTs.scrapeHandler. run_outcome. Qed.

Lemma SinglePage_outcome (body : Body) (w : W) :
  Async.outcome (SinglePage.scrapeHandler body w)
  = expectedOutcome (fun u => u) (fun _ => SinglePage.scrapeZillowListings) body w.
Proof. unfold SinglePage.scrapeHandler. run_outcome. Qed.

End HandlerOutcomes.

(* ----------------------------------------------------------------- *)
(** ** The handlers: what every run looks like *)

Section PaginationEvents.
Context {W : Type} {browser : Browser W} {url_api : UrlApi}.
Import Trace.

Lemma Controller_whileLoop_events fuel baseUrl pageCounter allListings (w : W) :
  forallb paginationEvent
    (Async.events (Controller.whileLoop fuel baseUrl pageCounter allListings w)) = true.
Proof.
  revert pageCounter allListings w.
  induction fuel as [|fuel IH]; intros pc all w; [reflexivity|].
  rewrite Controller_whileLoop_step.
  destruct (pc <=? maxPages)%nat; [|reflexivity].
  destruct (pageTurn Extractor.extract3 w) as [[listings w1]|[e w1]];
    [|try destruct e; reflexivity].
  cbv zeta. destruct (page_goto _ w1) as [w2|]; [|reflexivity].
  specialize (IH (pc + 1) (all ++ listings) w2).
  destruct (Controller.whileLoop fuel baseUrl (pc + 1) _ w2) as [[o w3] evs].
  exact IH.
Qed.

Lemma ScrapeTs_whileLoop_events fuel baseUrl pageCounter allListings (w : W) :
  forallb paginationEvent
    (Async.events (ScrapeTs.whileLoop fuel baseUrl pageCounter allListings w)) = true.
Proof.
  revert pageCounter allListings w.
  induction fuel as [|fuel IH]; intros pc all w; [reflexivity|].
  rewrite ScrapeTs_whileLoop_step.
  destruct (pc <=? maxPages)%nat; [|reflexivity].
  destruct (pageTurn Extractor.extract3 w) as [[listings w1]|[e w1]];
    [|try destruct e; reflexivity].
  cbv zeta. destruct (length _ =? 0)%nat; [reflexivity|].
  destruct (page_goto _ w1) as [w2|]; [|reflexivity].
  specialize (IH (pc + 1) (all ++ listings) w2).
  destruct (ScrapeTs.whileLoop fuel baseUrl (pc + 1) _ w2) as [[o w3] evs].
  exact IH.
Qed.

Lemma pagination_plain (evs : list Event) :
  forallb paginationEvent evs = true -> plain evs.
Proof.
  unfold plain. induction evs as [|e evs IH]; [reflexivity|].
  cbn [forallb]. intros H. apply andb_prop in H as [He H].
  rewrite (IH H). destruct e; try discriminate; reflexivity.
Qed.

Lemma pagination_types_nothing (evs : list Event) :
  forallb paginationEvent evs = true ->
  typed evs = [] /\ count isResolve evs = 0.
Proof.
  induction evs as [|e evs IH]; [now split|].
  cbn [forallb]. intros H. apply andb_prop in H as [He H].
  destruct (IH H) as [IH1 IH2].
  destruct e; try discriminate; cbn [typed]; rewrite count_cons; cbn [isResolve];
    now split.
Qed.

End PaginationEvents.

Section Shape.
Context {W : Type} {browser : Browser W} {url_api : UrlApi}.
Import Trace.

Variable setup : list Event.
Variable notFound : string.
Variable normalize : string -> string.
Variable scrape : string -> @Async.M W (list Listing).
Variable budget : nat.

Hypothesis setup_settings : forallb settingEvent setup = true.
Hypothesis scrape_events :
  forall u w, forallb paginationEvent (Async.events (scrape u w)) = true.
Hypothesis scrape_total :
  forall u w, Async.ranOut (Async.outcome (scrape u w)) = false.
Hypothesis scrape_concat :
  forall u w l, Async.outcome (scrape u w) = Ok l ->
                l = concat (extractions (Async.events (scrape u w))).
Hypothesis scrape_budget :
  forall u w, length (gotoUrls (Async.events (scrape u w))) <= budget.

Lemma settings_quiet (tail : list Event) :
  gotoUrls (setup ++ tail) = gotoUrls tail
  /\ responses (setup ++ tail) = responses tail
  /\ extractions (setup ++ tail) = extractions tail
  /\ typed (setup ++ tail) = typed tail
  /\ count isClose (setup ++ tail) = count isClose tail
  /\ count isLaunch (setup ++ tail) = count isLaunch tail
  /\ count isResolve (setup ++ tail) = count isResolve tail.
Proof.
  clear - setup_settings. induction setup as [|e l IH]; [repeat split|].
  cbn [forallb] in setup_settings. apply andb_prop in setup_settings as [He Hl].
  destruct (IH Hl) as (H1 & H2 & H3 & H4 & H5 & H6 & H7).
  destruct e; try discriminate;
    cbn [app gotoUrls responses extractions typed]; rewrite !count_cons;
    cbn [isClose isLaunch isResolve]; repeat split; assumption.
Qed.

Lemma scrape_quiet (u : string) (w : W) :
  responses (Async.events (scrape u w)) = []
  /\ typed (Async.events (scrape u w)) = []
  /\ count isClose (Async.events (scrape u w)) = 0
  /\ count isLaunch (Async.events (scrape u w)) = 0
  /\ count isResolve (Async.events (scrape u w)) = 0.
Proof.
  pose proof (scrape_events u w) as H.
  pose proof (pagination_plain _ H) as Hp.
  destruct (pagination_types_nothing _ H) as [Ht Hr].
  repeat split; auto using plain_no_response, plain_no_close, plain_no_launch.
Qed.

Lemma resolver_quiet (q : string) (w : W) :
  responses (Async.events (getZillowURL q w)) = []
  /\ count isClose (Async.events (getZillowURL q w)) = 0
  /\ count isLaunch (Async.events (getZillowURL q w)) = 0.
Proof.
  pose proof (getZillowURL_plain q w) as Hp.
  repeat split; auto using plain_no_response, plain_no_close, plain_no_launch.
Qed.

Let evs (body : Body) (w : W) : list Event :=
  expectedEvents setup notFound normalize scrape body w.
Let out (body : Body) (w : W) : Outcome unit :=
  expectedOutcome normalize scrape body w.

(** Either one answer, written last, or a call that stays pending. *)
Lemma shape_answer (body : Body) (w : W) :
  (out body w = Ok tt
   /\ exists before r, evs body w = before ++ [ERespond r]
                       /\ responses before = [])
  \/ (out body w = Pending
      /\ responses (evs body w) = []
      /\ count isClose (evs body w) = 0
      /\ count isLaunch (evs body w) = 1).
Proof.
  unfold evs, out, expectedEvents, expectedOutcome, failure.
  destruct (negb _ || negb _).
  { left. split; [reflexivity|]. now exists [], (mkResponse 400 (ErrorPayload validationMessage)). }
  destruct (puppeteer_launch w) as [w0|].
  2:{ left. split; [reflexivity|]. now eexists [ELaunch], _. }
  set (q := (JsonValue.toStr (query body) ++ " " ++ JsonValue.toStr (city body))%string).
  destruct (resolver_quiet q w0) as (Hr1 & Hc1 & Hl1).
  destruct (getZillowURL_quiet q w0) as (_ & Hran & Hpend & _).
  destruct (getZillowURL q w0) as [[o1 w1] evs1].
  cbn [Async.events Async.outcome fst snd] in *.
  assert (Hhead : forall tail,
             responses (ELaunch :: setup ++ evs1 ++ tail) = responses tail).
  { intros tail. cbn [responses].
    rewrite (proj1 (proj2 (settings_quiet _))), responses_app, Hr1. reflexivity. }
  assert (Hlast : forall mid r, responses mid = [] ->
             exists before r', ELaunch :: setup ++ evs1 ++ mid ++ [ERespond r]
                               = before ++ [ERespond r']
                               /\ responses before = []).
  { intros mid r Hmid. exists (ELaunch :: setup ++ evs1 ++ mid), r. split.
    - cbn [app]. now rewrite <- !app_assoc.
    - rewrite Hhead. exact Hmid. }
  destruct o1 as [z|e| |]; try discriminate; try (exfalso; now apply Hpend).
  2:{ left. split; [reflexivity|]. apply (Hlast []). reflexivity. }
  destruct (Js.truthy z).
  2:{ left. split; [reflexivity|]. apply (Hlast []). reflexivity. }
  cbv zeta. destruct (page_goto _ w1) as [w2|].
  2:{ left. split; [reflexivity|].
      apply (Hlast [EFound (toStr z); EGoto (normalize (toStr z))]). reflexivity. }
  destruct (scrape_quiet (normalize (toStr z)) w2) as (Hr2 & _ & Hc2 & Hl2 & _).
  pose proof (scrape_total (normalize (toStr z)) w2) as Hran2.
  destruct (scrape _ w2) as [[o2 w3] evs2].
  cbn [Async.events Async.outcome fst snd] in *.
  destruct o2 as [l|e| |]; try discriminate.
  - left. split; [reflexivity|].
    destruct (Hlast (EFound (toStr z) :: EGoto (normalize (toStr z)) :: evs2 ++ [EClose])
                    (mkResponse 200 (ResultPayload (query body) (city body) l)))
      as (before & r' & E & Hb).
    { cbn [responses]. rewrite responses_app, Hr2. reflexivity. }
    exists before, r'. split; [|exact Hb]. rewrite <- E.
    cbn [app]. rewrite <- ?app_assoc. reflexivity.
  - left. split; [reflexivity|].
    destruct (Hlast (EFound (toStr z) :: EGoto (normalize (toStr z)) :: evs2)
                    (mkResponse 500 (ErrorPayload (Err_toString e))))
      as (before & r' & E & Hb).
    { cbn [responses]. exact Hr2. }
    exists before, r'. split; [|exact Hb]. rewrite <- E.
    cbn [app]. rewrite <- ?app_assoc. reflexivity.
  - right. split; [reflexivity|]. rewrite Hhead. cbn [responses].
    rewrite app_nil_r. split; [exact Hr2|].
    rewrite !count_cons. cbn [isClose isLaunch].
    destruct (settings_quiet (evs1 ++ EFound (toStr z)
                                :: EGoto (normalize (toStr z)) :: evs2))
      as (_ & _ & _ & _ & Hsc & Hsl & _).
    rewrite Hsc, Hsl, !count_app, !count_cons, Hc1, Hl1, Hc2, Hl2.
    cbn [isClose isLaunch]. split; reflexivity.
Qed.

Lemma extractions_app (l1 l2 : list Event) :
  extractions (l1 ++ l2) = extractions l1 ++ extractions l2.
Proof. induction l1 as [|[] l1 IH]; cbn [app extractions]; congruence. Qed.


(** An answer with status 200. *)
Lemma shape_success (body : Body) (w : W) (r : Response) :
  In r (responses (evs body w)) -> status r = 200 ->
  payload r = ResultPayload (query body) (city body)
                            (concat (extractions (evs body w)))
  /\ exists before, evs body w = before ++ [EClose; ERespond r]
                    /\ count isClose before = 0.
Proof.
  unfold evs, expectedEvents, failure.
  destruct (negb _ || negb _).
  { cbn [responses In]. intros [<-|[]]. discriminate. }
  destruct (puppeteer_launch w) as [w0|].
  2:{ cbn [responses In]. intros [<-|[]]. discriminate. }
  set (q := (JsonValue.toStr (query body) ++ " " ++ JsonValue.toStr (city body))%string).
  destruct (resolver_quiet q w0) as (Hr1 & Hc1 & Hl1).
  destruct (getZillowURL_quiet q w0) as (He1 & _).
  destruct (getZillowURL q w0) as [[o1 w1] evs1].
  cbn [Async.events Async.outcome fst snd] in *.
  assert (Hhead : forall tail,
             responses (ELaunch :: setup ++ evs1 ++ tail) = responses tail).
  { intros tail. cbn [responses].
    rewrite (proj1 (proj2 (settings_quiet _))), responses_app, Hr1. reflexivity. }
  rewrite Hhead.
  destruct o1 as [z|e| |];
    try (cbn [responses In]; intros [<-|[]]; discriminate);
    try (cbn [responses In]; contradiction).
  destruct (Js.truthy z); [|cbn [responses In]; intros [<-|[]]; discriminate].
  cbv zeta. destruct (page_goto _ w1) as [w2|];
    [|cbn [responses In]; intros [<-|[]]; discriminate].
  destruct (scrape_quiet (normalize (toStr z)) w2) as (Hr2 & _ & Hc2 & _).
  pose proof (scrape_concat (normalize (toStr z)) w2) as Hcat.
  destruct (scrape _ w2) as [[o2 w3] evs2].
  cbn [Async.events Async.outcome fst snd responses] in *.
  rewrite responses_app, Hr2. cbn [app].
  destruct o2 as [l|e| |];
    try (cbn [responses In]; intros [<-|[]]; discriminate);
    try (cbn [responses In]; contradiction).
  cbn [responses In]. intros [<-|[]] _. cbn [payload]. split.
  - f_equal. rewrite (Hcat l eq_refl). cbn [extractions].
    rewrite (proj1 (proj2 (proj2 (settings_quiet _)))), !extractions_app, He1.
    cbn [extractions app]. rewrite extractions_app. cbn [extractions].
    now rewrite app_nil_r.
  - exists (ELaunch :: setup ++ evs1
              ++ EFound (toStr z) :: EGoto (normalize (toStr z)) :: evs2).
    split; [cbn [app]; rewrite <- ?app_assoc; reflexivity|].
    rewrite count_cons. cbn [isClose].
    rewrite (proj1 (proj2 (proj2 (proj2 (proj2 (settings_quiet _)))))).
    rewrite count_app, !count_cons, Hc1, Hc2. reflexivity.
Qed.

(** The page loads of one request. *)
Lemma shape_gotos (body : Body) (w : W) :
  length (gotoUrls (evs body w)) <= 2 + budget
  /\ (gotoUrls (evs body w) = []
      \/ exists rest, gotoUrls (evs body w) = "https://www.bing.com/"%string :: rest).
Proof.
  unfold evs, expectedEvents, failure.
  destruct (negb _ || negb _); [split; [cbn; lia | now left]|].
  destruct (puppeteer_launch w) as [w0|]; [|split; [cbn; lia | now left]].
  set (q := (JsonValue.toStr (query body) ++ " " ++ JsonValue.toStr (city body))%string).
  pose proof (getZillowURL_gotos q w0) as Hg1.
  destruct (getZillowURL q w0) as [[o1 w1] evs1].
  cbn [Async.events snd] in Hg1. cbn [gotoUrls].
  rewrite (proj1 (settings_quiet _)), gotoUrls_app, Hg1. cbn [app].
  split; [|right; eexists; reflexivity]. cbn [length].
  destruct o1 as [z|e| |]; try (cbn; lia).
  destruct (Js.truthy z); [|cbn; lia].
  cbv zeta. cbn [gotoUrls length].
  destruct (page_goto _ w1) as [w2|]; [|cbn; lia].
  pose proof (scrape_budget (normalize (toStr z)) w2) as Hb.
  destruct (scrape _ w2) as [[o2 w3] evs2].
  cbn [Async.events snd] in Hb. rewrite gotoUrls_app, length_app.
  destruct o2; cbn [gotoUrls length]; lia.
Qed.

(** A run that loads a page has made the page settings first. *)
Lemma shape_settings (body : Body) (w : W) :
  gotoUrls (evs body w) <> [] ->
  exists rest, evs body w = ELaunch :: setup ++ rest.
Proof.
  unfold evs, expectedEvents, failure.
  destruct (negb _ || negb _); [intros H; now contradiction H|].
  destruct (puppeteer_launch w) as [w0|]; [|intros H; now contradiction H].
  destruct (getZillowURL _ w0) as [[o1 w1] evs1].
  intros _. eexists. reflexivity.
Qed.

(** Which requests are refused. *)
Lemma shape_validation (body : Body) (w : W) :
  (evs body w = [ERespond (mkResponse 400 (ErrorPayload validationMessage))]
   <-> JsonValue.truthy (query body) = false \/ JsonValue.truthy (city body) = false)
  /\ (JsonValue.truthy (query body) = true -> JsonValue.truthy (city body) = true ->
      exists rest, evs body w = ELaunch :: rest).
Proof.
  unfold evs, expectedEvents, failure.
  destruct (JsonValue.truthy (query body)), (JsonValue.truthy (city body)); cbn [negb orb];
    try (split; [split; [intros _; auto | reflexivity] | discriminate]).
  destruct (puppeteer_launch w) as [w0|].
  2:{ split; [split; [discriminate | intros [|]; discriminate]|].
      intros _ _. eexists. reflexivity. }
  destruct (getZillowURL _ w0) as [[o1 w1] evs1].
  split; [split; [discriminate | intros [|]; discriminate]|].
  intros _ _. eexists. reflexivity.
Qed.

(** The browser does not start. *)
Lemma shape_launch_failure (body : Body) (w : W) :
  JsonValue.truthy (query body) = true -> JsonValue.truthy (city body) = true ->
  puppeteer_launch w = None ->
  evs body w = [ELaunch; failure LaunchError] /\ out body w = Ok tt.
Proof.
  intros Hq Hc Hl. unfold evs, out, expectedEvents, expectedOutcome.
  rewrite Hq, Hc, Hl. now split.
Qed.

(** The resolver finds no usable link. *)
Lemma shape_not_found (body : Body) (w w0 w1 : W) (z : option string)
      (evs1 : list Event) :
  JsonValue.truthy (query body) = true -> JsonValue.truthy (city body) = true ->
  puppeteer_launch w = Some w0 ->
  getZillowURL (JsonValue.toStr (query body) ++ " " ++ JsonValue.toStr (city body)) w0
  = (Ok z, w1, evs1) ->
  Js.truthy z = false ->
  evs body w = ELaunch :: setup ++ evs1 ++ [failure (JsError notFound)]
  /\ gotoUrls (evs body w) = ["https://www.bing.com/"%string]
  /\ count isClose (evs body w) = 0
  /\ out body w = Ok tt.
Proof.
  intros Hq Hc Hl Hz Ht. unfold evs, out, expectedEvents, expectedOutcome.
  rewrite Hq, Hc, Hl, Hz, Ht. cbn [negb orb].
  pose proof (getZillowURL_gotos
                (JsonValue.toStr (query body) ++ " " ++ JsonValue.toStr (city body)) w0) as Hg1.
  destruct (resolver_quiet
              (JsonValue.toStr (query body) ++ " " ++ JsonValue.toStr (city body)) w0) as (_ & Hc1 & _).
  rewrite Hz in Hg1, Hc1. cbn [Async.events snd] in Hg1, Hc1.
  split; [reflexivity|]. split; [|split; [|reflexivity]].
  - cbn [gotoUrls]. rewrite (proj1 (settings_quiet _)), gotoUrls_app, Hg1.
    reflexivity.
  - rewrite count_cons. cbn [isClose].
    rewrite (proj1 (proj2 (proj2 (proj2 (proj2 (settings_quiet _)))))).
    rewrite count_app, Hc1. reflexivity.
Qed.


End Shape.

Section ScrapeFacts.
Context {W : Type} {browser : Browser W} {url_api : UrlApi}.
Import Trace.

Lemma Controller_scrape_facts (u : string) (w : W) :
  let r := Controller.scrapeZillowListings u w in
  forallb paginationEvent (Async.events r) = true
  /\ Async.ranOut (Async.outcome r) = false
  /\ (forall l, Async.outcome r = Ok l -> l = concat (extractions (Async.events r)))
  /\ length (gotoUrls (Async.events r)) <= 4.
Proof.
  intros r. subst r. unfold Controller.scrapeZillowListings.
  destruct (Controller_whileLoop_inv (S maxPages) u 1 [] w) as (Hg & _ & _ & Ho & Hf).
  split; [apply Controller_whileLoop_events|]. split; [|split; [exact Ho|]].
  - destruct (Async.outcome _); try reflexivity.
    exfalso. apply Hf; [unfold maxPages; lia | reflexivity].
  - apply Prefix_length in Hg. now rewrite length_map, length_seq in Hg.
Qed.

Lemma ScrapeTs_scrape_facts (u : string) (w : W) :
  let r := ScrapeTs.scrapeZillowListings u w in
  forallb paginationEvent (Async.events r) = true
  /\ Async.ranOut (Async.outcome r) = false
  /\ (forall l, Async.outcome r = Ok l -> l = concat (extractions (Async.events r)))
  /\ length (gotoUrls (Async.events r)) <= 4.
Proof.
  intros r. subst r. unfold ScrapeTs.scrapeZillowListings.
  destruct (ScrapeTs_whileLoop_inv (S maxPages) u 1 [] w) as (Hg & _ & _ & Ho & Hf).
  split; [apply ScrapeTs_whileLoop_events|]. split; [|split; [exact Ho|]].
  - destruct (Async.outcome _); try reflexivity.
    exfalso. apply Hf; [unfold maxPages; lia | reflexivity].
  - apply Prefix_length in Hg. now rewrite length_map, length_seq in Hg.
Qed.

Lemma SinglePage_scrape_facts (w : W) :
  let r := SinglePage.scrapeZillowListings w in
  forallb paginationEvent (Async.events r) = true
  /\ Async.ranOut (Async.outcome r) = false
  /\ (forall l, Async.outcome r = Ok l -> l = concat (extractions (Async.events r)))
  /\ length (gotoUrls (Async.events r)) <= 0.
Proof.
  intros r. subst r. rewrite SinglePage_scrape_step.
  destruct (pageTurn Extractor.extract5 w) as [[l w1]|[[e|] w1]];
    repeat split; try discriminate; try (cbn; lia).
  intros l' [= <-]. cbn. now rewrite app_nil_r.
Qed.

End ScrapeFacts.

Ltac scrape_facts :=
  lazymatch goal with
  | |- context [Controller.scrapeZillowListings ?u ?w] =>
      pose proof (Controller_scrape_facts u w) as (?F1 & ?F2 & ?F3 & ?F4)
  | |- context [ScrapeTs.scrapeZillowListings ?u ?w] =>
      pose proof (ScrapeTs_scrape_facts u w) as (?F1 & ?F2 & ?F3 & ?F4)
  | |- context [SinglePage.scrapeZillowListings ?w] =>
      pose proof (SinglePage_scrape_facts w) as (?F1 & ?F2 & ?F3 & ?F4)
  end.

Ltac shape_side :=
  lazymatch goal with
  | |- forallb settingEvent _ = true => reflexivity
  | |- _ => intros; cbv beta in *; scrape_facts; auto
  end.

Lemma truthy_false_iff (v : option Json) :
  JsonValue.truthy v = false
  <-> v = None \/ v = Some JNull \/ v = Some (JBool false)
      \/ v = Some (JNumber "0") \/ v = Some (JString "").
Proof.
  destruct v as [[|[|]|t|t|t|]|]; cbn [JsonValue.truthy];
    try (split; [discriminate | intros [H|[H|[H|[H|H]]]]; discriminate]);
    try (split; [intros _; tauto | reflexivity]).
  - destruct (String.eqb_spec t "0") as [->|Hne]; cbn [negb].
    + split; [intros _; tauto | reflexivity].
    + split; [discriminate|].
      intros [H|[H|[H|[H|H]]]]; try discriminate. injection H as ->. contradiction.
  - destruct (String.eqb_spec t "") as [->|Hne]; cbn [negb].
    + split; [intros _; tauto | reflexivity].
    + split; [discriminate|].
      intros [H|[H|[H|[H|H]]]]; try discriminate. injection H as ->. contradiction.
Qed.

Section HandlerRuns.
Context {W : Type} {browser : Browser W} {url_api : UrlApi}.
Import Trace.

(** X3. Each handler refuses a request with status 400 and the validation
    message, doing nothing else, exactly when [query] or [city] is falsy:
    missing from the body, or one of the JSON values null, false, the number
    zero and the empty string. For every other body (any other string or
    number, true, an array, an object, in each of the two fields) the first
    thing it does is to launch the browser. *)
Theorem request_validation (body : Body) (w : W) :
  let falsy (v : option Json) :=
    v = None \/ v = Some JNull \/ v = Some (JBool false)
    \/ v = Some (JNumber "0") \/ v = Some (JString "") in
  let refused evs :=
    (evs = [ERespond (mkResponse 400 (ErrorPayload validationMessage))]
     <-> falsy (query body) \/ falsy (city body))
    /\ (~ falsy (query body) -> ~ falsy (city body) ->
        exists rest, evs = ELaunch :: rest) in
  refused (Async.events (Controller.scrapeListings body w))
  /\ refused (Async.events (ScrapeTs.scrapeHandler body w))
  /\ refused (Async.events (SinglePage.scrapeHandler body w)).
Proof.
  cbv beta zeta. rewrite Controller_events, ScrapeTs_events, SinglePage_events.
  rewrite <- !truthy_false_iff.
  assert (Ht : forall v, JsonValue.truthy v <> false -> JsonValue.truthy v = true)
    by (intros v; destruct (JsonValue.truthy v); congruence).
  split; [|split];
    (split; [apply shape_validation; shape_side
            | intros Hq Hc; apply shape_validation; auto; shape_side]).
Qed.

(** X11. The promise of a handler never rejects. A run either writes exactly
    one answer, as the last thing it does, or stays pending for ever (the
    scroll loop of some page never resolves); in a pending run nothing is
    answered and the browser that was launched is never closed. *)
Theorem one_answer_or_pending (body : Body) (w : W) :
  let settled (r : Outcome unit * W * list Event) :=
    (Async.outcome r = Ok tt
     /\ exists before a, Async.events r = before ++ [ERespond a]
                         /\ responses before = [])
    \/ (Async.outcome r = Pending
        /\ responses (Async.events r) = []
        /\ count isClose (Async.events r) = 0
        /\ count isLaunch (Async.events r) = 1) in
  settled (Controller.scrapeListings body w)
  /\ settled (ScrapeTs.scrapeHandler body w)
  /\ settled (SinglePage.scrapeHandler body w).
Proof.
  cbv beta zeta.
  rewrite Controller_events, ScrapeTs_events, SinglePage_events,
    Controller_outcome, ScrapeTs_outcome, SinglePage_outcome.
  split; [|split]; apply shape_answer; shape_side.
Qed.

(** X12. One request loads at most 6 pages in the paginated handlers (Bing,
    the target, four result pages) and at most 2 in the single-page
    handler; when any page is loaded, the first one is the Bing home page. *)
Theorem navigation_budget (body : Body) (w : W) :
  let within n evs :=
    length (gotoUrls evs) <= n
    /\ (gotoUrls evs = []
        \/ exists rest, gotoUrls evs = "https://www.bing.com/"%string :: rest) in
  within 6 (Async.events (Controller.scrapeListings body w))
  /\ within 6 (Async.events (ScrapeTs.scrapeHandler body w))
  /\ within 2 (Async.events (SinglePage.scrapeHandler body w)).
Proof.
  cbv beta zeta. rewrite Controller_events, ScrapeTs_events, SinglePage_events.
  split; [|split].
  - apply (shape_gotos _ _ _ _ 4); shape_side.
  - apply (shape_gotos _ _ _ _ 4); shape_side.
  - apply (shape_gotos _ _ _ _ 0); shape_side.
Qed.

(** X7. When a handler answers with status 200, the payload echoes the
    query and the city of the request as they were received and its listings
    are the concatenation, in page order, of what the extractor returned on
    each page of the run; the browser is closed exactly once, immediately
    before that answer. *)
Theorem success_answer (body : Body) (w : W) :
  let echoes (r : Outcome unit * W * list Event) :=
    forall a, In a (responses (Async.events r)) -> status a = 200 ->
      payload a = ResultPayload (query body) (city body)
                    (concat (extractions (Async.events r)))
      /\ exists before, Async.events r = before ++ [EClose; ERespond a]
                        /\ count isClose before = 0 in
  echoes (Controller.scrapeListings body w)
  /\ echoes (ScrapeTs.scrapeHandler body w)
  /\ echoes (SinglePage.scrapeHandler body w).
Proof.
  cbv beta zeta. rewrite Controller_events, ScrapeTs_events, SinglePage_events.
  split; [|split]; intros a; apply (shape_success _ _ _ _); shape_side.
Qed.

(** X13. Before a handler loads any page it has launched the browser,
    opened the page and set the navigation time-out to 60000 ms, in that
    order; scrape.ts and the single-page handler have also set the user
    agent by then. *)
Theorem settings_before_navigation (body : Body) (w : W) :
  (gotoUrls (Async.events (Controller.scrapeListings body w)) <> [] ->
   exists rest,
     Async.events (Controller.scrapeListings body w)
     = ELaunch :: ENewPage :: ESetNavTimeout 60000%N :: rest)
  /\ (gotoUrls (Async.events (ScrapeTs.scrapeHandler body w)) <> [] ->
      exists rest,
        Async.events (ScrapeTs.scrapeHandler body w)
        = ELaunch :: ENewPage :: ESetNavTimeout 60000%N
            :: ESetUserAgent userAgent :: rest)
  /\ (gotoUrls (Async.events (SinglePage.scrapeHandler body w)) <> [] ->
      exists rest,
        Async.events (SinglePage.scrapeHandler body w)
        = ELaunch :: ENewPage :: ESetNavTimeout 60000%N
            :: ESetUserAgent userAgent :: rest).
Proof.
  rewrite Controller_events, ScrapeTs_events, SinglePage_events.
  split; [|split]; intros H; apply shape_settings in H; exact H.
Qed.

(** X4. When the body is valid and the browser cannot be launched, a
    handler answers 500 right after the failed launch and does nothing
    else: no page is opened, the resolver is not entered and nothing is
    closed. *)
Theorem launch_failure (body : Body) (w : W) :
  JsonValue.truthy (query body) = true -> JsonValue.truthy (city body) = true ->
  puppeteer_launch w = None ->
  let answer := [ELaunch; failure LaunchError] in
  (Async.events (Controller.scrapeListings body w) = answer
   /\ Async.outcome (Controller.scrapeListings body w) = Ok tt)
  /\ (Async.events (ScrapeTs.scrapeHandler body w) = answer
      /\ Async.outcome (ScrapeTs.scrapeHandler body w) = Ok tt)
  /\ (Async.events (SinglePage.scrapeHandler body w) = answer
      /\ Async.outcome (SinglePage.scrapeHandler body w) = Ok tt).
Proof.
  intros Hq Hc Hl answer.
  rewrite Controller_events, ScrapeTs_events, SinglePage_events,
    Controller_outcome, ScrapeTs_outcome, SinglePage_outcome.
  split; [|split]; apply shape_launch_failure; assumption.
Qed.


(** X6. When the resolver returns null or the empty string, a handler
    answers 500 with its not-found message (No Zillow link found. in
    scraper.controller.ts, No Zillow link found in search results. in the
    two others) right after the resolver: Bing is the only page ever
    loaded, and the browser is not closed. *)
Theorem target_not_found (body : Body) (w w0 w1 : W) (z : option string)
        (evs1 : list Event) :
  JsonValue.truthy (query body) = true -> JsonValue.truthy (city body) = true ->
  puppeteer_launch w = Some w0 ->
  getZillowURL (JsonValue.toStr (query body) ++ " " ++ JsonValue.toStr (city body)) w0
  = (Ok z, w1, evs1) ->
  z = None \/ z = Some ""%string ->
  let ends setup message evs :=
    evs = ELaunch :: setup ++ evs1
            ++ [ERespond (mkResponse 500 (ErrorPayload ("Error: " ++ message)))]
    /\ gotoUrls evs = ["https://www.bing.com/"%string]
    /\ count isClose evs = 0 in
  ends [ENewPage; ESetNavTimeout 60000%N] "No Zillow link found."%string
       (Async.events (Controller.scrapeListings body w))
  /\ ends [ENewPage; ESetNavTimeout 60000%N; ESetUserAgent userAgent]
          "No Zillow link found in search results."%string
          (Async.events (ScrapeTs.scrapeHandler body w))
  /\ ends [ENewPage; ESetNavTimeout 60000%N; ESetUserAgent userAgent]
          "No Zillow link found in search results."%string
          (Async.events (SinglePage.scrapeHandler body w)).
Proof.
  intros Hq Hc Hl Hz Hnull ends. subst ends. cbv beta.
  assert (Ht : Js.truthy z = false) by (destruct Hnull as [-> | ->]; reflexivity).
  rewrite Controller_events, ScrapeTs_events, SinglePage_events.
  split; [|split].
  - destruct (shape_not_found [ENewPage; ESetNavTimeout 60000%N]
                "No Zillow link found." (fun u => u)
                Controller.scrapeZillowListings eq_refl
                body w w0 w1 z evs1 Hq Hc Hl Hz Ht) as (E & Hg & Hclose & _).
    repeat split; assumption.
  - destruct (shape_not_found
                [ENewPage; ESetNavTimeout 60000%N; ESetUserAgent userAgent]
                "No Zillow link found in search results." ScrapeTs.normalizeBase
                ScrapeTs.scrapeZillowListings eq_refl
                body w w0 w1 z evs1 Hq Hc Hl Hz Ht) as (E & Hg & Hclose & _).
    repeat split; assumption.
  - destruct (shape_not_found
                [ENewPage; ESetNavTimeout 60000%N; ESetUserAgent userAgent]
                "No Zillow link found in search results." (fun u => u)
                (fun _ => SinglePage.scrapeZillowListings) eq_refl
                body w w0 w1 z evs1 Hq Hc Hl Hz Ht) as (E & Hg & Hclose & _).
    repeat split; assumption.
Qed.

End HandlerRuns.

Lemma success_answer_witness :
  let w := TestWeb.world TestWeb.siteOnePage (TestWeb.hits TestWeb.target) in
  let record := mkListing (Some "$500,000"%string)
                  (Some "123 Main St, New York, NY"%string)
                  (Some "https://example-target.test/homedetails/1_zpid/"%string)
                  None None in
  let a := mkResponse 200
             (ResultPayload (query TestWeb.request) (city TestWeb.request) [record]) in
  exists before,
    Async.events (TestWeb.scrapeTs TestWeb.request w) = before ++ [EClose; ERespond a]
    /\ Trace.count Trace.isClose before = 0.
Proof.
  intros w record a.
  destruct (@success_answer TestWeb.World TestWeb.browser TestWeb.url_api
              TestWeb.request w) as (_ & H & _).
  destruct (H a) as (_ & before & E & Hc); [left; reflexivity | reflexivity |].
  now exists before.
Defined.

Lemma launch_failure_witness :
  Async.events (TestWeb.controller TestWeb.request TestWeb.noBrowser)
  = [ELaunch; failure LaunchError]
  /\ Async.outcome (TestWeb.controller TestWeb.request TestWeb.noBrowser) = Ok tt.
Proof.
  apply (@launch_failure TestWeb.World TestWeb.browser TestWeb.url_api
           TestWeb.request TestWeb.noBrowser eq_refl eq_refl eq_refl).
Defined.


Lemma target_not_found_witness :
  let w := TestWeb.world TestWeb.siteAll TestWeb.misses in
  Trace.gotoUrls (Async.events (TestWeb.controller TestWeb.request w))
  = ["https://www.bing.com/"%string]
  /\ Trace.count Trace.isClose (Async.events (TestWeb.controller TestWeb.request w)) = 0.
Proof.
  intros w.
  destruct (@target_not_found TestWeb.World TestWeb.browser TestWeb.url_api
              TestWeb.request w _ _ None _ eq_refl eq_refl eq_refl eq_refl
              (or_introl eq_refl)) as ((_ & H) & _).
  exact H.
Defined.

Lemma settings_before_navigation_witness :
  let w := TestWeb.world TestWeb.siteAll (TestWeb.hits TestWeb.target) in
  exists rest,
    Async.events (TestWeb.scrapeTs TestWeb.request w)
    = ELaunch :: ENewPage :: ESetNavTimeout 60000%N :: ESetUserAgent userAgent :: rest.
Proof.
  intros w.
  destruct (@settings_before_navigation TestWeb.World TestWeb.browser
              TestWeb.url_api TestWeb.request w) as (_ & H & _).
  apply H. discriminate.
Defined.

(* ----------------------------------------------------------------- *)
(** ** The two pagination loops, to their end *)

Section PaginationRuns.
Context {W : Type} {browser : Browser W} {url_api : UrlApi}.
Import Trace.

Ltac trace_cbn :=
  cbn [Async.events Async.outcome Async.final fst snd app length concat Nat.eqb
       gotoUrls cursors extractions] in *.

Lemma pages_after (pageCounter : nat) :
  pageCounter <= maxPages ->
  S maxPages - pageCounter = S (S maxPages - (pageCounter + 1)).
Proof. lia. Qed.

(** A run of the loop of zillow.service.ts that returns has asked for every
    remaining page, the one after the last page read included. *)
Lemma Controller_whileLoop_ok fuel baseUrl pageCounter allListings (w : W)
      (l : list Listing) :
  Async.outcome (Controller.whileLoop fuel baseUrl pageCounter allListings w) = Ok l ->
  gotoUrls (Async.events (Controller.whileLoop fuel baseUrl pageCounter allListings w))
  = map (nextPageUrl baseUrl) (seq (pageCounter + 1) (S maxPages - pageCounter))
  /\ length (extractions
              (Async.events (Controller.whileLoop fuel baseUrl pageCounter allListings w)))
     = S maxPages - pageCounter.
Proof.
  revert pageCounter allListings w.
  induction fuel as [|fuel IH]; intros pc all w; [discriminate|].
  rewrite Controller_whileLoop_step.
  destruct (Nat.leb_spec pc maxPages) as [Hle|Hgt].
  2:{ intros _. replace (S maxPages - pc) with 0 by lia. now split. }
  destruct (pageTurn Extractor.extract3 w) as [[listings w1]|[e w1]];
    [|try destruct e; discriminate].
  cbv zeta. destruct (page_goto _ w1) as [w2|]; [|discriminate].
  specialize (IH (pc + 1) (all ++ listings) w2).
  destruct (Controller.whileLoop fuel baseUrl (pc + 1) _ w2) as [[o w3] evs].
  trace_cbn. intros Ho. destruct (IH Ho) as [Hg He].
  rewrite (pages_after pc Hle). cbn [seq map].
  replace (pc + 1 + 1) with (S (pc + 1)) in Hg by lia.
  rewrite Hg, He. split; reflexivity.
Qed.

(** When the page after the last one cannot be loaded, the loop of
    zillow.service.ts never returns a value. *)
Lemma Controller_whileLoop_last_page fuel baseUrl pageCounter allListings (w : W) :
  (forall w', page_goto (nextPageUrl baseUrl (S maxPages)) w' = None) ->
  pageCounter <= maxPages ->
  forall l,
    Async.outcome (Controller.whileLoop fuel baseUrl pageCounter allListings w) <> Ok l.
Proof.
  intros Hdown. revert pageCounter allListings w.
  induction fuel as [|fuel IH]; intros pc all w Hle l; [discriminate|].
  rewrite Controller_whileLoop_step.
  destruct (Nat.leb_spec pc maxPages) as [_|Hgt]; [|lia].
  destruct (pageTurn Extractor.extract3 w) as [[listings w1]|[e w1]];
    [|try destruct e; discriminate].
  cbv zeta. destruct (page_goto _ w1) as [w2|] eqn:Eg; [|discriminate].
  destruct (Nat.eq_dec (pc + 1) (S maxPages)) as [E|ne].
  { rewrite E, Hdown in Eg. discriminate. }
  specialize (IH (pc + 1) (all ++ listings) w2
                 ltac:(lia) l).
  destruct (Controller.whileLoop fuel baseUrl (pc + 1) _ w2) as [[o w3] evs].
  exact IH.
Qed.

(** In the loop of zillow.service.ts every extraction is followed by the
    request for the next page. *)
Lemma Controller_whileLoop_next fuel baseUrl pageCounter allListings (w : W)
      (before after : list Event) (x : list Listing) :
  Async.events (Controller.whileLoop fuel baseUrl pageCounter allListings w)
  = before ++ EExtracted x :: after ->
  exists rest,
    after = EGoto (nextPageUrl baseUrl
                     (pageCounter + 1 + length (extractions before))) :: rest.
Proof.
  revert pageCounter allListings w before.
  induction fuel as [|fuel IH]; intros pc all w before H.
  - destruct before; discriminate.
  - rewrite Controller_whileLoop_step in H.
    destruct (pc <=? maxPages)%nat; [|destruct before; discriminate].
    destruct (pageTurn Extractor.extract3 w) as [[listings w1]|[e w1]].
    2:{ destruct before as [|a [|b [|c before]]]; discriminate. }
    cbv zeta in H. destruct (page_goto _ w1) as [w2|].
    2:{ trace_cbn.
        destruct before as [|a [|b [|c [|d before]]]]; try discriminate.
        - injection H as <- <- <- <-. trace_cbn. rewrite Nat.add_0_r.
          now eexists.
        - injection H as _ _ _ _ H. destruct before; discriminate. }
    specialize (IH (pc + 1) (all ++ listings) w2).
    destruct (Controller.whileLoop fuel baseUrl (pc + 1) _ w2) as [[o w3] evs].
    trace_cbn.
    destruct before as [|a [|b [|c [|d before]]]]; try discriminate.
    + injection H as <- <- <- <-. trace_cbn. rewrite Nat.add_0_r. now eexists.
    + injection H as <- <- <- <- H. destruct (IH before H) as [rest ->].
      trace_cbn. exists rest. do 3 f_equal. lia.
Qed.

(** A run of the loop of scrape.ts that returns has either stopped on an
    empty page or read four pages that were not empty and asked for the
    fifth. *)
Lemma ScrapeTs_whileLoop_ok fuel baseUrl pageCounter allListings (w : W)
      (l : list Listing) :
  Async.outcome (ScrapeTs.whileLoop fuel baseUrl pageCounter allListings w) = Ok l ->
  (exists before,
      Async.events (ScrapeTs.whileLoop fuel baseUrl pageCounter allListings w)
      = before ++ [EExtracted []])
  \/ (gotoUrls (Async.events (ScrapeTs.whileLoop fuel baseUrl pageCounter allListings w))
      = map (nextPageUrl baseUrl) (seq (pageCounter + 1) (S maxPages - pageCounter))
      /\ length (extractions
                  (Async.events (ScrapeTs.whileLoop fuel baseUrl pageCounter allListings w)))
         = S maxPages - pageCounter
      /\ Forall (fun p => p <> [])
                (extractions
                   (Async.events (ScrapeTs.whileLoop fuel baseUrl pageCounter allListings w)))).
Proof.
  revert pageCounter allListings w.
  induction fuel as [|fuel IH]; intros pc all w; [discriminate|].
  rewrite ScrapeTs_whileLoop_step.
  destruct (Nat.leb_spec pc maxPages) as [Hle|Hgt].
  2:{ intros _. right. replace (S maxPages - pc) with 0 by lia. now repeat split. }
  destruct (pageTurn Extractor.extract3 w) as [[listings w1]|[e w1]];
    [|try destruct e; discriminate].
  cbv zeta.
  destruct listings as [|x listings].
  { intros _. left. now exists [EPage pc; EAutoScroll]. }
  cbn [length Nat.eqb].
  destruct (page_goto _ w1) as [w2|]; [|discriminate].
  specialize (IH (pc + 1) (all ++ x :: listings) w2).
  destruct (ScrapeTs.whileLoop fuel baseUrl (pc + 1) _ w2) as [[o w3] evs].
  trace_cbn. intros Ho. destruct (IH Ho) as [[before ->] | (Hg & He & Hne)].
  - left. eexists (_ :: _ :: _ :: _ :: before). reflexivity.
  - right. rewrite (pages_after pc Hle). cbn [seq map].
    replace (pc + 1 + 1) with (S (pc + 1)) in Hg by lia.
    rewrite Hg, He. split; [reflexivity|]. split; [reflexivity|].
    constructor; [discriminate | exact Hne].
Qed.

(** X8. The pagination of zillow.service.ts returns a value only after it
    has asked for the pages 2, 3, 4 and 5 of the base and extracted exactly
    four pages; the fifth page is never read, but when it cannot be loaded
    the call does not return a value, so the four pages already extracted
    are lost. *)
Theorem controller_needs_page_five (baseUrl : string) (w : W) :
  let r := Controller.scrapeZillowListings baseUrl w in
  (forall l, Async.outcome r = Ok l ->
             gotoUrls (Async.events r)
             = [baseUrl ++ "2_p/"; baseUrl ++ "3_p/"; baseUrl ++ "4_p/";
                baseUrl ++ "5_p/"]%string
             /\ length (extractions (Async.events r)) = 4)
  /\ ((forall w', page_goto (baseUrl ++ "5_p/")%string w' = None) ->
      forall l, Async.outcome r <> Ok l).
Proof.
  intros r. subst r. unfold Controller.scrapeZillowListings. split.
  - intros l Hl. exact (Controller_whileLoop_ok _ _ _ _ _ _ Hl).
  - intros Hdown l. apply Controller_whileLoop_last_page; [exact Hdown|].
    unfold maxPages. lia.
Qed.

(** X9. The pagination of zillow.service.ts has no early exit: whatever an
    extraction returned, an empty sequence included, the next thing it does
    is to ask for the following page, whose number is 2 plus the number of
    pages extracted before. *)
Theorem controller_never_stops_early (baseUrl : string) (w : W)
        (before after : list Event) (x : list Listing) :
  Async.events (Controller.scrapeZillowListings baseUrl w)
  = before ++ EExtracted x :: after ->
  exists rest,
    after = EGoto (nextPageUrl baseUrl (2 + length (extractions before))) :: rest.
Proof.
  intros H. exact (Controller_whileLoop_next _ _ _ _ _ _ _ _ H).
Qed.

(** X10. The pagination of scrape.ts returns a value in two cases only: its
    last extraction was empty, or it extracted four pages, none of them
    empty, and asked for the pages 2, 3, 4 and 5 of the base. *)
Theorem scrapeTs_returns_when (baseUrl : string) (w : W) (l : list Listing) :
  let r := ScrapeTs.scrapeZillowListings baseUrl w in
  Async.outcome r = Ok l ->
  (exists before, Async.events r = before ++ [EExtracted []])
  \/ (gotoUrls (Async.events r)
      = [baseUrl ++ "2_p/"; baseUrl ++ "3_p/"; baseUrl ++ "4_p/";
         baseUrl ++ "5_p/"]%string
      /\ length (extractions (Async.events r)) = 4
      /\ Forall (fun p => p <> []) (extractions (Async.events r))).
Proof.
  intros r Hl. subst r. unfold ScrapeTs.scrapeZillowListings in *.
  exact (ScrapeTs_whileLoop_ok _ _ _ _ _ _ Hl).
Qed.

End PaginationRuns.

Lemma controller_needs_page_five_witness :
  let w := TestWeb.load TestWeb.page1 (TestWeb.world TestWeb.siteAll TestWeb.bing) in
  let r := @Controller.scrapeZillowListings TestWeb.World TestWeb.browser
             TestWeb.url_api TestWeb.target w in
  Trace.gotoUrls (Async.events r)
  = ["https://example-target.test/new-york-ny/2_p/";
     "https://example-target.test/new-york-ny/3_p/";
     "https://example-target.test/new-york-ny/4_p/";
     "https://example-target.test/new-york-ny/5_p/"]%string
  /\ length (Trace.extractions (Async.events r)) = 4.
Proof.
  intros w r.
  destruct (@controller_needs_page_five TestWeb.World TestWeb.browser
              TestWeb.url_api TestWeb.target w) as (H & _).
  exact (H _ eq_refl).
Defined.

(** A first page without any card: the controller goes on to page 2. *)
Lemma controller_never_stops_early_witness :
  let w := TestWeb.load TestWeb.noCards (TestWeb.world TestWeb.siteOnePage TestWeb.bing) in
  let r := @Controller.scrapeZillowListings TestWeb.World TestWeb.browser
             TestWeb.url_api TestWeb.target w in
  exists after rest,
    Async.events r = [EPage 1; EAutoScroll] ++ EExtracted [] :: after
    /\ after = EGoto "https://example-target.test/new-york-ny/2_p/" :: rest.
Proof.
  intros w r. eexists. eexists. split; [reflexivity|].
  destruct (@controller_never_stops_early TestWeb.World TestWeb.browser
              TestWeb.url_api TestWeb.target w [EPage 1; EAutoScroll] _ []
              eq_refl) as [rest E].
  injection E as <-. reflexivity.
Defined.

Lemma scrapeTs_returns_when_witness :
  let w := TestWeb.load TestWeb.page1 (TestWeb.world TestWeb.siteOnePage TestWeb.bing) in
  let r := @ScrapeTs.scrapeZillowListings TestWeb.World TestWeb.browser
             TestWeb.url_api TestWeb.target w in
  (exists before, Async.events r = before ++ [EExtracted []])
  \/ (Trace.gotoUrls (Async.events r)
      = ["https://example-target.test/new-york-ny/2_p/";
         "https://example-target.test/new-york-ny/3_p/";
         "https://example-target.test/new-york-ny/4_p/";
         "https://example-target.test/new-york-ny/5_p/"]%string
      /\ length (Trace.extractions (Async.events r)) = 4
      /\ Forall (fun p => p <> []) (Trace.extractions (Async.events r))).
Proof.
  intros w r.
  exact (@scrapeTs_returns_when TestWeb.World TestWeb.browser TestWeb.url_api
           TestWeb.target w _ eq_refl).
Defined.

(* ----------------------------------------------------------------- *)
(** ** The scroll loop, in numbers *)

Module ScrollBounds.
Import ScrollDriver.
Open Scope Z_scope.

(** The number of firings a page of constant height [c] needs. *)
Lemma firings_for (c : Z) :
  let k := Z.to_nat (Z.max 1 ((c + 99) / 100)) in
  (1 <= k)%nat
  /\ c <= 100 * Z.of_nat k
  /\ forall j, (1 <= j < k)%nat -> 100 * Z.of_nat j < c.
Proof.
  intros k. subst k.
  assert (Hd : 100 * ((c + 99) / 100) <= c + 99 < 100 * ((c + 99) / 100) + 100).
  { pose proof (Z.div_mod (c + 99) 100 ltac:(lia)) as E.
    pose proof (Z.mod_pos_bound (c + 99) 100 ltac:(lia)) as B. lia. }
  repeat split; lia.
Qed.

(** X14. On a page whose height stays at [c], [autoScroll] resolves at firing
    max(1, ceil(c / 100)) (so after that many periods of 300 ms): it always
    scrolls at least once, even on an empty page, and for a positive height
    it stops with less than one increment scrolled beyond the height. *)
Theorem autoScroll_constant_height (c : Z) (fuel : nat) :
  let k := Z.to_nat (Z.max 1 ((c + 99) / 100)) in
  (k <= fuel)%nat ->
  autoScroll (fun _ => c) fuel
  = Some (k, mkState (100 * Z.of_nat k) (100 * Z.of_nat k) true)
  /\ (0 < c -> 100 * Z.of_nat k < c + 100).
Proof.
  intros k Hfuel. destruct (firings_for c) as (H1 & Hat & Hbefore). fold k in H1, Hat, Hbefore.
  split.
  - apply ScrollFacts.autoScroll_char. unfold distance. repeat split; auto; lia.
  - intros Hpos. subst k.
    pose proof (Z.div_mod (c + 99) 100 ltac:(lia)) as E.
    pose proof (Z.mod_pos_bound (c + 99) 100 ltac:(lia)) as B. lia.
Qed.

(** X15. On a page whose height never exceeds [bound], [autoScroll] resolves
    within max(1, ceil(bound / 100)) firings, however the height moves
    below that bound. *)
Theorem autoScroll_bounded_height (heights : nat -> Z) (bound : Z) :
  (forall k, heights k <= bound) ->
  let n := Z.to_nat (Z.max 1 ((bound + 99) / 100)) in
  exists k st, autoScroll heights n = Some (k, st) /\ (1 <= k <= n)%nat.
Proof.
  intros Hb n. destruct (firings_for bound) as (H1 & Hat & _). fold n in H1, Hat.
  destruct (ScrollFacts.run_reaches n heights 1 initial n) as (k & st & E).
  - lia.
  - cbn [initial totalHeight]. unfold distance.
    replace (S n - 1)%nat with n by lia. specialize (Hb n). lia.
  - exists k, st. split; [exact E|].
    apply ScrollFacts.autoScroll_char in E. lia.
Qed.

(** X16. When [autoScroll] resolves, the distance scrolled is a positive
    multiple of 100 that has reached the height read at that firing; on a
    page whose height never shrinks it exceeds that height by less than 100
    unless the loop stopped at its first firing. *)
Theorem autoScroll_overshoot (heights : nat -> Z) (fuel k : nat) (st : State) :
  autoScroll heights fuel = Some (k, st) ->
  totalHeight st = 100 * Z.of_nat k
  /\ scrolledBy st = totalHeight st
  /\ 100 <= totalHeight st
  /\ heights k <= totalHeight st
  /\ ((forall j, heights j <= heights (S j)) -> (2 <= k)%nat ->
      totalHeight st < heights k + 100).
Proof.
  intros E. apply ScrollFacts.autoScroll_char in E as (Hk & Hbefore & Hat & ->).
  unfold distance in *. cbn [totalHeight scrolledBy]. repeat split; try lia.
  intros Hmono Hk2. destruct k as [|k]; [lia|].
  specialize (Hbefore k ltac:(lia)). specialize (Hmono k). lia.
Qed.

End ScrollBounds.

Lemma autoScroll_constant_height_witness :
  ScrollDriver.autoScroll (fun _ => 250%Z) 5
  = Some (3, ScrollDriver.mkState 300 300 true).
Proof.
  exact (proj1 (ScrollBounds.autoScroll_constant_height 250 5 ltac:(vm_compute; lia))).
Defined.

Lemma autoScroll_bounded_height_witness :
  exists k st,
    ScrollDriver.autoScroll (fun j => if Nat.even j then 120%Z else 180%Z) 2
    = Some (k, st) /\ 1 <= k <= 2.
Proof.
  apply (ScrollBounds.autoScroll_bounded_height
           (fun j => if Nat.even j then 120%Z else 180%Z) 180).
  intros k. destruct (Nat.even k); lia.
Defined.

Lemma autoScroll_overshoot_witness :
  let heights := fun j : nat => (150 + 10 * Z.of_nat j)%Z in
  ScrollDriver.autoScroll heights 4 = Some (2, ScrollDriver.mkState 200 200 true)
  /\ (heights 2%nat <= 200 < heights 2%nat + 100)%Z.
Proof.
  intros heights.
  destruct (ScrollBounds.autoScroll_overshoot heights 4 2
              (ScrollDriver.mkState 200 200 true) eq_refl)
    as (_ & _ & _ & H4 & H5).
  split; [reflexivity|]. split; [exact H4|].
  apply H5; [intros j; unfold heights; lia | lia].
Defined.

(* ----------------------------------------------------------------- *)
(** ** The fields of a record *)

Section TrimFacts.
Open Scope string_scope.

Lemma trimStart_inside (s : string) :
  exists l, s = l ++ Js.trimStart s /\ blank l = true.
Proof.
  induction s as [|c s (l & E & Hl)]; [now exists ""|].
  cbn [Js.trimStart]. destruct (Js.isSpace c) eqn:Ec.
  - exists (String c l). split; [cbn; now rewrite <- E|].
    unfold blank in *. cbn. now rewrite Ec.
  - now exists "".
Qed.

Lemma trimEnd_inside (s : string) :
  exists r, s = Js.trimEnd s ++ r /\ blank r = true.
Proof.
  induction s as [|c s (r & E & Hr)]; [now exists ""|].
  cbn [Js.trimEnd]. destruct (Js.trimEnd s) as [|d t] eqn:Et.
  - cbn in E. subst r. destruct (Js.isSpace c) eqn:Ec.
    + exists (String c s). split; [reflexivity|].
      unfold blank in *. cbn. now rewrite Ec.
    + exists s. now split.
  - exists r. split; [cbn [append]; f_equal; exact E | exact Hr].
Qed.

Lemma trimEnd_last (s init : string) (c : ascii) :
  Js.trimEnd s = init ++ String c "" -> Js.isSpace c = false.
Proof.
  revert init. induction s as [|d s IH]; intros init H.
  - destruct init; discriminate.
  - cbn [Js.trimEnd] in H. destruct (Js.trimEnd s) as [|e t] eqn:Et.
    + destruct (Js.isSpace d) eqn:Ed; [destruct init; discriminate|].
      destruct init as [|i init]; cbn in H.
      * now injection H as <-.
      * injection H as _ H. destruct init; discriminate.
    + destruct init as [|i init]; cbn in H; [discriminate|].
      injection H as _ H. now apply (IH init).
Qed.

Lemma trimEnd_head (c : ascii) (s : string) :
  Js.isSpace c = false -> Js.trimEnd (String c s) = String c (Js.trimEnd s).
Proof.
  intros Hc. cbn [Js.trimEnd]. destruct (Js.trimEnd s); [now rewrite Hc | reflexivity].
Qed.

Lemma trimEnd_idem (s : string) : Js.trimEnd (Js.trimEnd s) = Js.trimEnd s.
Proof.
  induction s as [|c s IH]; [reflexivity|].
  cbn [Js.trimEnd]. destruct (Js.trimEnd s) as [|d t] eqn:Et.
  - destruct (Js.isSpace c) eqn:Ec; [reflexivity|]. cbn. now rewrite Ec.
  - change (Js.trimEnd (String c (String d t)))
      with (match Js.trimEnd (String d t) with
            | "" => if Js.isSpace c then "" else String c ""
            | r => String c r
            end).
    now rewrite IH.
Qed.

(** [trim] removes white space around the text and nothing else. *)
Lemma trim_inside (t : string) : Inside (Js.trim t) t.
Proof.
  unfold Inside, Js.trim.
  destruct (trimStart_inside t) as (l & El & Hl).
  destruct (trimEnd_inside (Js.trimStart t)) as (r & Er & Hr).
  exists l, r. split; [|now split]. rewrite <- Er. exact El.
Qed.

Lemma trim_trimmed (t : string) : Js.trim t <> "" -> Trimmed (Js.trim t).
Proof.
  intros Hne. split; [exact Hne|]. split.
  - intros c rest E. unfold Js.trim in *.
    pose proof (trimStart_head t) as Hh.
    destruct (Js.trimStart t) as [|d u]; [now contradiction Hne|].
    rewrite (trimEnd_head d u Hh) in E. now injection E as <-.
  - intros init c E. exact (trimEnd_last _ _ _ E).
Qed.

Lemma trim_idem (t : string) : Js.trim (Js.trim t) = Js.trim t.
Proof.
  unfold Js.trim. pose proof (trimStart_head t) as Hh.
  destruct (Js.trimStart t) as [|d u]; [reflexivity|].
  rewrite (trimEnd_head d u Hh). cbn [Js.trimStart]. rewrite Hh.
  rewrite <- (trimEnd_head d u Hh). apply trimEnd_idem.
Qed.

End TrimFacts.

Section FieldFacts.
Context {url_api : UrlApi}.
Import Extractor.

Lemma fieldText_value (el : option string) (s : string) :
  fieldText el = Some s ->
  exists t, el = Some t /\ s = Js.trim t /\ s <> ""%string.
Proof.
  unfold fieldText, Js.orNull, Js.truthy. destruct el as [t|]; [|discriminate].
  cbn [option_map]. destruct (String.eqb_spec (Js.trim t) ""); cbn [negb];
    [discriminate|].
  intros [= <-]. now exists t.
Qed.

Lemma fieldDetail_value (l : list string) (i : nat) (s : string) :
  fieldDetail l i = Some s ->
  exists t, nth_error l i = Some t /\ s = Js.trim t /\ s <> ""%string.
Proof.
  unfold fieldDetail. destruct (Nat.ltb i (length l)); [|discriminate].
  apply fieldText_value.
Qed.

(** X18. Every text that the extractor emits for price, address, beds or
    baths, whatever the link of the record, is the text content of its
    element (the price element, the address element, the first and the
    second entry of the details list) without the white space around it: it
    is not empty, neither starts nor ends with white space, and trimming it
    again changes nothing. *)
Theorem text_fields_are_trimmed (card : Card) (link3 link5 : option string)
        (s : string) :
  let r := listing5 card link5 in
  let from (source : option string) :=
    exists t, source = Some t /\ Inside s t /\ Trimmed s /\ Js.trim s = s in
  (price r = Some s -> from (priceText card))
  /\ (address r = Some s -> from (addrText card))
  /\ (beds r = Some (Some s) -> from (nth_error (detailsList card) 0))
  /\ (baths r = Some (Some s) -> from (nth_error (detailsList card) 1))
  /\ price (listing3 card link3) = price r
  /\ address (listing3 card link3) = address r.
Proof.
  intros r from. subst r from. cbn [listing5 listing3 price address beds baths].
  assert (H : forall t, s = Js.trim t -> s <> ""%string ->
                        Inside s t /\ Trimmed s /\ Js.trim s = s).
  { intros t -> Hne. split; [apply trim_inside|].
    split; [now apply trim_trimmed | apply trim_idem]. }
  repeat split.
  - intros E. apply fieldText_value in E as (t & Et & Es & Hne).
    exists t. split; [exact Et | now apply H].
  - intros E. apply fieldText_value in E as (t & Et & Es & Hne).
    exists t. split; [exact Et | now apply H].
  - intros [= E]. apply fieldDetail_value in E as (t & Et & Es & Hne).
    exists t. split; [exact Et | now apply H].
  - intros [= E]. apply fieldDetail_value in E as (t & Et & Es & Hne).
    exists t. split; [exact Et | now apply H].
Qed.

(** X17. The link of a card. The statement that computes it leaves null in
    exactly three cases: the card has no link element, the element has no
    href attribute, or the attribute is the empty string (which is not
    resolved to the origin). Any other href is handed to the URL constructor
    with the origin of the page: when it parses, the link is the resolved
    URL; when it does not, the constructor throws and nothing is pushed for
    the card. For the page this means: either extractor fails, with that
    error and no other, exactly when some card of the page has a non-empty
    href that does not parse, wherever the card stands; and when an
    extractor returns, the link of every record is the value computed for
    a card of the page. *)
Theorem link_field_cases (doc : Document) :
  let o := origin doc in
  let unparsed :=
    exists card h, In card (propertyCards doc) /\ linkHref card = Some (Some h)
                   /\ h <> ""%string /\ URL_href h o = None in
  (forall card,
      fieldLink o (linkHref card) = Returns None
      <-> linkHref card = None \/ linkHref card = Some None
          \/ linkHref card = Some (Some ""%string))
  /\ (forall card h results, linkHref card = Some (Some h) -> h <> ""%string ->
        match URL_href h o with
        | Some resolved =>
            pushCard3 o results card
            = Returns (results ++ [listing3 card (Some resolved)])
            /\ pushCard5 o results card
               = Returns (results ++ [listing5 card (Some resolved)])
        | None =>
            pushCard3 o results card = Raises invalidUrl
            /\ pushCard5 o results card = Raises invalidUrl
        end)
  /\ (extract3 doc = Raises invalidUrl <-> unparsed)
  /\ (extract5 doc = Raises invalidUrl <-> unparsed)
  /\ (forall message, extract3 doc = Raises message \/ extract5 doc = Raises message ->
                      message = invalidUrl)
  /\ (forall rs, extract3 doc = Returns rs \/ extract5 doc = Returns rs ->
                 forall r, In r rs ->
                 exists card, In card (propertyCards doc)
                              /\ fieldLink o (linkHref card) = Returns (link r)).
Proof.
  intros o unparsed.
  assert (Hbad : existsb (badLink o) (propertyCards doc) = true <-> unparsed).
  { rewrite existsb_exists. subst unparsed. split.
    - intros (c & Hin & Hb). apply badLink_iff in Hb as (h & Hh & Hne & Hn).
      now exists c, h.
    - intros (c & h & Hin & Hh & Hne & Hn). exists c. split; [exact Hin|].
      apply badLink_iff. now exists h. }
  assert (Hlink : forall c, badLink o c = false ->
                            fieldLink o (linkHref c) = Returns (linkOf o c)).
  { intros c. unfold badLink, linkOf.
    destruct (fieldLink o (linkHref c)); [reflexivity | discriminate]. }
  assert (Hrs : forall rs (f : Card -> Listing),
             (forall c, link (f c) = linkOf o c) ->
             existsb (badLink o) (propertyCards doc) = false ->
             rs = map f (propertyCards doc) ->
             forall r, In r rs ->
             exists card, In card (propertyCards doc)
                          /\ fieldLink o (linkHref card) = Returns (link r)).
  { intros rs f Hf Hex -> r Hin. apply in_map_iff in Hin as (c & <- & Hc).
    exists c. split; [exact Hc|]. rewrite Hf. apply Hlink.
    destruct (badLink o c) eqn:E; [|reflexivity].
    assert (existsb (badLink o) (propertyCards doc) = true)
      by (apply existsb_exists; now exists c).
    congruence. }
  rewrite extract3_map, extract5_map. fold o.
  split; [|split; [|split; [|split; [|split]]]].
  - intros card. unfold fieldLink, Js.truthy.
    destruct (linkHref card) as [[h|]|]; cbn.
    + destruct (String.eqb_spec h ""); cbn [negb].
      * subst h. split; auto.
      * destruct (URL_href h o);
          (split; [discriminate|]); intros [H|[H|H]]; congruence.
    + split; auto.
    + split; auto.
  - intros card h results Hh Hne. unfold pushCard3, pushCard5, fieldLink, Js.truthy.
    rewrite Hh. destruct (String.eqb_spec h ""); [contradiction|]. cbn [negb].
    destruct (URL_href h o); now split.
  - rewrite <- Hbad. destruct (existsb _ _); split; congruence.
  - rewrite <- Hbad. destruct (existsb _ _); split; congruence.
  - intros message. destruct (existsb _ _); intros [H|H]; congruence.
  - intros rs. destruct (existsb _ _) eqn:Hex; intros [H|H]; try discriminate;
      injection H as <-.
    + now apply (Hrs _ (record3 o)).
    + now apply (Hrs _ (record5 o)).
Qed.

(** X19. In the single-page extractor beds is read from the first entry of
    the details list and baths from the second: beds is the trimmed text of
    the first entry, and null when that text is empty; baths is the trimmed
    text of the second entry, and null when that text is empty. With no
    entry both are null, with one entry baths is null, beds does not depend
    on any entry but the first, and entries after the second are never
    looked at. *)
Theorem details_by_position (card : Card) (link : option string) :
  let r := listing5 card link in
  let read (t : string) :=
    if String.eqb (Js.trim t) "" then None else Some (Js.trim t) in
  (forall t, nth_error (detailsList card) 0 = Some t -> beds r = Some (read t))
  /\ (forall t, nth_error (detailsList card) 1 = Some t -> baths r = Some (read t))
  /\ (length (detailsList card) = 0 -> beds r = Some None /\ baths r = Some None)
  /\ (length (detailsList card) = 1 -> baths r = Some None)
  /\ beds r = beds (listing5 (keepDetails 1 card) link)
  /\ r = listing5 (keepDetails 2 card) link.
Proof.
  cbv zeta. unfold listing5, keepDetails.
  cbn [priceText addrText linkHref detailsList beds baths].
  assert (Hread : forall t, fieldText (Some t)
                            = if String.eqb (Js.trim t) "" then None
                              else Some (Js.trim t)).
  { intros t. unfold fieldText, Js.orNull, Js.truthy. cbn [option_map].
    now destruct (String.eqb (Js.trim t) ""). }
  destruct (detailsList card) as [|a [|b rest]]; cbn [length firstn nth_error];
    unfold fieldDetail; cbn [length Nat.ltb Nat.leb nth_error];
    repeat split; try discriminate; try reflexivity;
    intros t [= <-]; now rewrite Hread.
Qed.

(** X20. On one page the two extractors agree. They fail on the same pages,
    with the same error. When they return, dropping beds and baths from the
    records of the single-page extractor gives the records of the paginated
    extractor, in the same order; the paginated records never have the two
    keys and the single-page records always have them. *)
Theorem extractors_agree (doc : Document) :
  match extract5 doc, extract3 doc with
  | Returns rs5, Returns rs3 =>
      map dropDetails rs5 = rs3
      /\ Forall (fun r => beds r = None /\ baths r = None) rs3
      /\ Forall (fun r => beds r <> None /\ baths r <> None) rs5
  | Raises m5, Raises m3 => m5 = m3
  | _, _ => False
  end.
Proof.
  rewrite extract3_map, extract5_map. destruct (existsb _ _); [reflexivity|].
  split; [|split].
  - rewrite map_map. apply map_ext. reflexivity.
  - apply Forall_map, Forall_forall. intros c _. now split.
  - apply Forall_map, Forall_forall. intros c _. split; discriminate.
Qed.

End FieldFacts.

(** X21. The normalisation of scrape.ts changes a URL exactly when it does
    not end with a slash, by appending one; applying it twice is the same as
    once. *)
Theorem normalizeBase_idempotent (u : string) :
  ScrapeTs.normalizeBase (ScrapeTs.normalizeBase u) = ScrapeTs.normalizeBase u
  /\ (ScrapeTs.normalizeBase u = u <-> Js.endsWith u "/" = true)
  /\ (Js.endsWith u "/" = false -> ScrapeTs.normalizeBase u = (u ++ "/")%string).
Proof.
  unfold ScrapeTs.normalizeBase. destruct (Js.endsWith u "/") eqn:E.
  - rewrite E. repeat split; auto. discriminate.
  - assert (E' : Js.endsWith (u ++ "/") "/" = true)
      by (apply endsWith_spec; now exists u).
    rewrite E'. repeat split; auto; try discriminate.
    intros H. apply (f_equal String.length) in H. rewrite length_append in H.
    cbn in H. lia.
Qed.

(** The address of the test card, with a space on either side. *)
Lemma text_fields_are_trimmed_witness :
  exists t,
    addrText TestWeb.card1 = Some t
    /\ Inside "123 Main St, New York, NY" t
    /\ Trimmed "123 Main St, New York, NY"
    /\ Js.trim "123 Main St, New York, NY" = "123 Main St, New York, NY"%string.
Proof.
  destruct (text_fields_are_trimmed TestWeb.card1 None None
              "123 Main St, New York, NY") as (_ & H & _).
  apply H. reflexivity.
Defined.
